(** * helpdesk.libs.notification: a shallow embedding

    The module renders a ticket's phase change into a message and delivers
    it over mail, a generic webhook, a Lark card webhook or an event webhook.
    Rendering is pure; delivery talks to SMTP and HTTP.  Delivery is modelled
    as a computation returning the ordered trace of external actions it
    performed together with its outcome (a returned value or a raised
    exception).  The collaborators the module imports (configuration, the
    template engine, the XML parser, the policy engine, the email package,
    the transports) are the fields of two records, [Config] and [World].
    A Python [str] is held as the bytes of its UTF-8 encoding. *)

From Stdlib Require Import String Ascii List ZArith Bool Lia.
Import ListNotations.
Open Scope string_scope.

Set Implicit Arguments.
Set Warnings "-register-all".

(* ================================================================= *)
(** ** Python strings *)

Module PyStr.

(** A Python [str] is represented by the bytes of its UTF-8 encoding.
    [str.strip()] removes the code points for which [str.isspace] holds;
    they are encoded on one, two or three bytes. *)

(** U+0009..U+000D and U+001C..U+0020. *)
Definition is_space1 (a : ascii) : bool :=
  let n := nat_of_ascii a in
  ((9 <=? n)%nat && (n <=? 13)%nat) || ((28 <=? n)%nat && (n <=? 32)%nat).

(** U+0085 and U+00A0: bytes C2 85 and C2 A0. *)
Definition is_space2 (a b : ascii) : bool :=
  (nat_of_ascii a =? 194)%nat
  && ((nat_of_ascii b =? 133)%nat || (nat_of_ascii b =? 160)%nat).

(** U+1680 (E1 9A 80), U+2000..U+200A (E2 80 80..8A), U+2028, U+2029 and
    U+202F (E2 80 A8, A9, AF), U+205F (E2 81 9F) and U+3000 (E3 80 80). *)
Definition is_space3 (a b c : ascii) : bool :=
  let x := nat_of_ascii a in
  let y := nat_of_ascii b in
  let z := nat_of_ascii c in
  ((x =? 225)%nat && (y =? 154)%nat && (z =? 128)%nat)
  || ((x =? 226)%nat && (y =? 128)%nat
      && (((128 <=? z)%nat && (z <=? 138)%nat)
          || (z =? 168)%nat || (z =? 169)%nat || (z =? 175)%nat))
  || ((x =? 226)%nat && (y =? 129)%nat && (z =? 159)%nat)
  || ((x =? 227)%nat && (y =? 128)%nat && (z =? 128)%nat).

Fixpoint lstrip (s : string) : string :=
  match s with
  | EmptyString => EmptyString
  | String a r1 =>
      if is_space1 a then lstrip r1
      else match r1 with
           | EmptyString => s
           | String b r2 =>
               if is_space2 a b then lstrip r2
               else match r2 with
                    | EmptyString => s
                    | String c r3 => if is_space3 a b c then lstrip r3 else s
                    end
           end
  end.

(** The bytes of [s] in reverse order. *)
Fixpoint rev (s : string) : string :=
  match s with
  | EmptyString => EmptyString
  | String a r => rev r ++ String a EmptyString
  end.

(** [lstrip] on reversed bytes: the last byte of an encoding comes first. *)
Fixpoint lstrip_rev (s : string) : string :=
  match s with
  | EmptyString => EmptyString
  | String c r1 =>
      if is_space1 c then lstrip_rev r1
      else match r1 with
           | EmptyString => s
           | String b r2 =>
               if is_space2 b c then lstrip_rev r2
               else match r2 with
                    | EmptyString => s
                    | String a r3 => if is_space3 a b c then lstrip_rev r3 else s
                    end
           end
  end.

Definition rstrip (s : string) : string := rev (lstrip_rev (rev s)).

Definition strip (s : string) : string := rstrip (lstrip s).
(** [s.split(sep)] for a one-character separator. *)
Fixpoint split (sep : ascii) (s : string) : list string :=
  match s with
  | EmptyString => [EmptyString]
  | String c r =>
      if Ascii.eqb c sep then EmptyString :: split sep r
      else match split sep r with
           | h :: t => String c h :: t
           | [] => [String c EmptyString]
           end
  end.

(** [sep.join(l)]. *)
Definition join (sep : string) (l : list string) : string := String.concat sep l.

(** Truthiness of a string: non-empty. *)
Definition nonempty (s : string) : bool :=
  match s with EmptyString => false | String _ _ => true end.

(** Truthiness of a value that is [None] or a string. *)
Definition truthy (o : option string) : bool :=
  match o with Some s => nonempty s | None => false end.

(** [str(x)] as an f-string prints a value that is [None] or a string. *)
Definition fmt (o : option string) : string :=
  match o with Some s => s | None => "None" end.

Definition nl : string := String (ascii_of_nat 10) EmptyString.

Definition comma : ascii := ","%char.
Definition colon : ascii := ":"%char.

Fixpoint mem (c : ascii) (s : string) : bool :=
  match s with
  | EmptyString => false
  | String a r => Ascii.eqb a c || mem c r
  end.

End PyStr.

(* ================================================================= *)
(** ** Exceptions, outcomes and traced computations *)

Inductive exn : Type :=
| TemplateNotFound
| ParseError
| TypeError
| ValueError
| KeyError
| IndexError
| JSONDecodeError
| PolicyLookupError
| SMTPConnectError
| SMTPAuthenticationError
| SMTPException
| ConnectionError
| HTTPError (status : Z).

Inductive outcome (A : Type) : Type :=
| Returned (a : A)
| Raised (e : exn).
Arguments Raised {A} e.

Definition obind {A B} (m : outcome A) (k : A -> outcome B) : outcome B :=
  match m with
  | Returned a => k a
  | Raised e => Raised e
  end.

(* ================================================================= *)
(** ** Tickets *)

(** Modelled from the spec: the enumeration [TicketPhase] of
    [helpdesk.models.db.ticket], which is not among the sources.  A member
    is identified by its [value]; the members the module names are REQUEST,
    APPROVAL and MARK, whose values are the strings it compares
    [phase.value] with.  [self.phase == TicketPhase.X] is [phase_eqb]. *)
Record TicketPhase : Type := { value : string }.

Definition REQUEST : TicketPhase := {| value := "request" |}.
Definition APPROVAL : TicketPhase := {| value := "approval" |}.
Definition MARK : TicketPhase := {| value := "mark" |}.

Definition phase_eqb (p q : TicketPhase) : bool := String.eqb (value p) (value q).

(** JSON values, as [r.json()] returns them (numbers restricted to integers;
    an object is the dict built from it, one binding per key). *)
Inductive json : Type :=
| JNull
| JBool (b : bool)
| JNum (n : Z)
| JStr (s : string)
| JArr (items : list json)
| JObj (fields : list (string * json)).

(** A node descriptor of [annotation["nodes"]]; [node.get(k)] is [None] when
    the key is absent. *)
Record Node : Type := {
  node_name : option string;
  node_node_type : option string
}.

(** The keys of [ticket.annotation] the module looks up with [.get]. *)
Record Annotation : Type := {
  ann_current_node : option string;
  ann_nodes : option (list Node);
  ann_policy : json;
  ann_approvers : json;
  ann_approval_log : json;
  ann_reason : option string
}.

Record Ticket : Type := {
  title : string;
  submitter : string;
  ccs : list string;
  reason : option string;
  status : string;
  created_at : string;
  confirmed_by : option string;
  is_approved : option bool;
  is_auto_approved : bool;
  web_url : string;
  params : list (string * string);
  color : string;
  annotation : Annotation
}.

(** Truthiness of the tri-state [is_approved]. *)
Definition tri_truthy (o : option bool) : bool :=
  match o with Some true => true | _ => false end.

(* ================================================================= *)
(** ** The parsed template: xml.etree.ElementTree *)

Inductive Element : Type :=
| Elem (tag : string) (text : option string) (children : list Element)
       (tail : option string).

Definition tag_of (e : Element) : string := let 'Elem t _ _ _ := e in t.
Definition text_of (e : Element) : option string := let 'Elem _ x _ _ := e in x.
Definition children_of (e : Element) : list Element := let 'Elem _ _ c _ := e in c.

(** [tree.findall(name)]: the direct children carrying that tag. *)
Definition findall (name : string) (tree : Element) : list Element :=
  filter (fun e => String.eqb (tag_of e) name) (children_of tree).

(** [''.join(piece.text for piece in pieces)]: a [None] text is a
    [TypeError]. *)
Fixpoint join_texts (pieces : list Element) : outcome string :=
  match pieces with
  | [] => Returned ""
  | p :: ps =>
      match text_of p with
      | None => Raised TypeError
      | Some s => obind (join_texts ps) (fun r => Returned (s ++ r))
      end
  end.

(* ================================================================= *)
(** ** Messages handed to the transports *)

(** The [EmailMessage] built by [MailNotification.send]. *)
Record EmailMessage : Type := {
  mail_content : string;
  mail_subject : string;
  mail_from : string;
  mail_to : string
}.

(** The dict posted by [WebhookNotification.send], one field per key. *)
Record WebhookMsg : Type := {
  wh_from : string;
  wh_title : string;
  wh_link : string;
  wh_color : string;
  wh_text : string;
  wh_markdown : string
}.

(** A button of a Lark card's action element. *)
Record Button : Type := {
  btn_tag : string;
  btn_text_tag : string;
  btn_text_content : string;
  btn_type : string;
  btn_url : string
}.

(** An entry of a Lark card's ["elements"] list. *)
Inductive CardElement : Type :=
| MarkdownElement (content : string)
| ActionElement (actions : list Button).

(** The card dict built by [LarkWebhookNotification.send]. *)
Record Card : Type := {
  card_wide_screen_mode : bool;
  card_elements : list CardElement;
  card_header_title_content : string;
  card_header_title_tag : string
}.

(** A value that is [None] or a string, or a boolean: what the expression
    [x or False] can evaluate to on a tri-state [x]. *)
Inductive pyval : Type :=
| PNone
| PBool (b : bool)
| PStr (s : string).

Definition py_truthy (v : pyval) : bool :=
  match v with
  | PNone => false
  | PBool b => b
  | PStr s => PyStr.nonempty s
  end.

(** [a or b]. *)
Definition py_or (a b : pyval) : pyval := if py_truthy a then a else b.

Definition of_tristate (o : option bool) : pyval :=
  match o with Some b => PBool b | None => PNone end.

Definition of_optstr (o : option string) : pyval :=
  match o with Some s => PStr s | None => PNone end.

(** Modelled from the spec: the schema [NotifyMessage] of
    [helpdesk.views.api.schemas], which is not among the sources; the spec
    lists its fields.  Each field holds the value the constructor call
    passes. *)
Record NotifyMessage : Type := {
  nm_phase : string;
  nm_title : string;
  nm_ticket_url : string;
  nm_status : string;
  nm_is_approved : pyval;
  nm_submitter : string;
  nm_params : list (string * string);
  nm_request_time : string;
  nm_reason : pyval;
  nm_approval_flow : json;
  nm_current_node : option string;
  nm_approvers : json;
  nm_next_node : option string;
  nm_approval_log : json;
  nm_notify_type : option string
}.

Inductive http_body : Type :=
| JsonWebhook (m : WebhookMsg)
| JsonLark (msg_type : string) (card : Card)
| DataEvent (m : NotifyMessage).

(** The external actions a [send] performs, in order. *)
Inductive event : Type :=
| EvSmtpOpen (ssl : bool) (host : string) (port : Z)
| EvSmtpLogin (user password : string)
| EvSmtpSendMessage (msg : EmailMessage)
| EvSmtpQuit
| EvPost (url : string) (body : http_body) (timeout : option Z)
| EvPrint (m : NotifyMessage)
| EvReport.

(** A computation: the trace of actions performed, and how it ended. *)
Definition IO (A : Type) : Type := (list event * outcome A)%type.

Definition ret {A} (a : A) : IO A := ([], Returned a).
Definition raise {A} (e : exn) : IO A := ([], Raised e).
Definition emit (ev : event) : IO unit := ([ev], Returned tt).
Definition lift {A} (o : outcome A) : IO A := ([], o).

Definition bind {A B} (m : IO A) (k : A -> IO B) : IO B :=
  match m with
  | (t, Returned a) => let (t', r) := k a in ((t ++ t')%list, r)
  | (t, Raised e) => (t, Raised e)
  end.

(** [try: body finally: fin]. *)
Definition try_finally {A} (body : IO A) (fin : IO unit) : IO A :=
  let (t, r) := body in
  let (t', r') := fin in
  ((t ++ t')%list, match r' with Raised e => Raised e | Returned _ => r end).

Declare Scope io_scope.
Delimit Scope io_scope with io.
Notation "x <- m ;; k" := (bind m (fun x => k))
  (at level 61, m at next level, right associativity) : io_scope.
Notation "' p <- m ;; k" := (bind m (fun x => let p := x in k))
  (at level 61, p pattern, m at next level, right associativity) : io_scope.
Notation "m ;; k" := (bind m (fun _ => k))
  (at level 61, right associativity) : io_scope.

Definition trace_of {A} (m : IO A) : list event := fst m.
Definition outcome_of {A} (m : IO A) : outcome A := snd m.

(** Observations on a trace. *)
Definition is_smtp_open (ev : event) : bool :=
  match ev with EvSmtpOpen _ _ _ => true | _ => false end.

Definition is_smtp_quit (ev : event) : bool :=
  match ev with EvSmtpQuit => true | _ => false end.

Definition is_post (ev : event) : bool :=
  match ev with EvPost _ _ _ => true | _ => false end.

Definition is_report (ev : event) : bool :=
  match ev with EvReport => true | _ => false end.

Definition count (p : event -> bool) (t : list event) : nat :=
  List.length (filter p t).

(* ================================================================= *)
(** ** Configuration and collaborators *)

(** The values imported from [helpdesk.config]. *)
Record Config : Type := {
  NOTIFICATION_TITLE_PREFIX : string;
  WEBHOOK_URL : option string;
  LARK_WEBHOOK_URL : option string;
  WEBHOOK_EVENT_URL : option string;
  ADMIN_EMAIL_ADDRS : option string;
  FROM_EMAIL_ADDR : string;
  SMTP_SERVER : string;
  SMTP_SERVER_PORT : Z;
  SMTP_SSL : bool;
  SMTP_CREDENTIALS : option string;
  get_user_email : string -> option string
}.

(** What [requests.post] does: it raises, or returns a response with a
    status code and a body that [r.json()] decodes or rejects. *)
Inductive http_result : Type :=
| PostRaises (e : exn)
| Response (status_code : Z) (body : option json).

(** The behaviour of the collaborators during one [send]. *)
Record World : Type := {
  (** [_templates.get_template(name).render(dict(ticket=ticket))] *)
  template_render : string -> Ticket -> outcome string;
  (** [ET.fromstring]; [None] is a [ParseError] *)
  fromstring : string -> option Element;
  (** [await ticket.get_flow_policy()], then its [get_node_approvers] *)
  get_flow_policy : Ticket -> outcome (option string -> string);
  (** [await ticket.get_rule_actions(kind)] *)
  get_rule_actions : Ticket -> string -> outcome (list string);
  (** The exception, if any, of opening the SMTP connection, of [login],
      of [send_message] and of [quit]. *)
  smtp_connect : option exn;
  smtp_login : option exn;
  smtp_send_message : option exn;
  smtp_quit : option exn;
  (** [msg.set_content(text)] on an [EmailMessage]: the exception, if any,
      that the email package raises. *)
  email_set_content : string -> option exn;
  (** [msg[name] = value] on an [EmailMessage]: the exception, if any, that
      the email package raises for that header (a [ValueError] when the
      value has a line break inside it). *)
  email_header : string -> string -> option exn;
  (** The result of the [requests.post] call. *)
  http : http_result
}.

(* ================================================================= *)
(** ** The notification classes *)

Definition optstr_eqb (a b : option string) : bool :=
  match a, b with
  | Some x, Some y => String.eqb x y
  | None, None => true
  | _, _ => false
  end.

(** [addr for addr in email_addrs if addr] *)
Fixpoint keep_truthy (l : list (option string)) : list string :=
  match l with
  | [] => []
  | Some s :: r => if PyStr.nonempty s then s :: keep_truthy r else keep_truthy r
  | None :: r => keep_truthy r
  end.

(** [enumerate(l)], counting from [k]. *)
Fixpoint enumerate_from {A} (k : nat) (l : list A) : list (nat * A) :=
  match l with
  | [] => []
  | x :: r => (k, x) :: enumerate_from (S k) r
  end.

Definition enumerate {A} (l : list A) : list (nat * A) := enumerate_from 0 l.

(** [d[key]] on the dict of a JSON object. *)
Fixpoint lookup (key : string) (fields : list (string * json)) : option json :=
  match fields with
  | [] => None
  | (k, v) :: r => if String.eqb k key then Some v else lookup key r
  end.

(** [v == 0] on a JSON value ([False == 0] holds in Python). *)
Definition py_eq_zero (v : json) : bool :=
  match v with
  | JNum n => Z.eqb n 0
  | JBool b => negb b
  | _ => false
  end.

(** [r.json()["StatusCode"] == 0] *)
Definition status_code_is_zero (body : option json) : outcome bool :=
  match body with
  | None => Raised JSONDecodeError
  | Some (JObj fields) =>
      match lookup "StatusCode" fields with
      | Some v => Returned (py_eq_zero v)
      | None => Raised KeyError
      end
  | Some _ => Raised TypeError
  end.

(** A response the Lark and event channels treat as a failed delivery:
    its status is not 200, or it is 200 with a JSON object whose
    [StatusCode] is not 0. *)
Inductive rejected_response : http_result -> Prop :=
| rejected_status (status_code : Z) (body : option json) :
    status_code <> 200%Z -> rejected_response (Response status_code body)
| rejected_code (fields : list (string * json)) (v : json) :
    lookup "StatusCode" fields = Some v -> py_eq_zero v = false ->
    rejected_response (Response 200 (Some (JObj fields))).

(** *** class Notification, and the transports it is delivered over *)

Module Notification.
Section WithCollaborators.

Variable cfg : Config.
Variable w : World.

Local Open Scope io_scope.

(** [Notification.render], for the class attribute [method]. *)
Definition render (method : string) (phase : TicketPhase) (ticket : Ticket)
  : outcome (string * string) :=
  obind (template_render w (method ++ "/" ++ value phase ++ ".j2") ticket)
    (fun message =>
       match fromstring w (PyStr.strip message) with
       | None => Raised ParseError
       | Some tree =>
           obind (join_texts (findall "title" tree)) (fun title =>
           obind (join_texts (findall "content" tree)) (fun content =>
           Returned (title, content)))
       end).

Definition get_approvers (ticket : Ticket) : outcome string :=
  obind (get_flow_policy w ticket) (fun policy =>
  Returned (policy (ann_current_node (annotation ticket)))).

(** *** Transport primitives *)

Definition attempt (ev : event) (failure : option exn) : IO unit :=
  emit ev ;; match failure with Some e => raise e | None => ret tt end.

(** [smtplib.SMTP_SSL(host, port) if SMTP_SSL else smtplib.SMTP(host, port)]:
    the session exists once the constructor has returned. *)
Definition smtp_open : IO unit :=
  match smtp_connect w with
  | Some e => raise e
  | None => emit (EvSmtpOpen (SMTP_SSL cfg) (SMTP_SERVER cfg) (SMTP_SERVER_PORT cfg))
  end.

Definition smtp_do_login (user password : string) : IO unit :=
  attempt (EvSmtpLogin user password) (smtp_login w).

Definition smtp_do_send_message (msg : EmailMessage) : IO unit :=
  attempt (EvSmtpSendMessage msg) (smtp_send_message w).

Definition smtp_do_quit : IO unit := attempt EvSmtpQuit (smtp_quit w).

(** [msg.set_content(text)]: no external action, but the call can raise. *)
Definition set_content (text : string) : IO unit :=
  match email_set_content w text with
  | Some e => raise e
  | None => ret tt
  end.

(** [msg[name] = value]: no external action, but the assignment can raise. *)
Definition set_header (name value : string) : IO unit :=
  match email_header w name value with
  | Some e => raise e
  | None => ret tt
  end.

(** [requests.post(url, ...)] *)
Definition post (url : string) (body : http_body) (timeout : option Z)
  : IO (Z * option json) :=
  emit (EvPost url body timeout) ;;
  match http w with
  | PostRaises e => raise e
  | Response status_code b => ret (status_code, b)
  end.

(** [r.raise_for_status()] of the requests library: an [HTTPError] for a
    status code from 400 to 599, nothing otherwise. *)
Definition raise_for_status (r : Z * option json) : IO unit :=
  let status_code := fst r in
  if ((400 <=? status_code) && (status_code <? 600))%Z
  then raise (HTTPError status_code) else ret tt.

Definition report : IO unit := emit EvReport.

(** The tail both the Lark and the event [send] share:
    [if r.status_code == 200 and r.json()["StatusCode"] == 0: return
    else: report()] *)
Definition check_response (r : Z * option json) : IO unit :=
  ok <- lift (if Z.eqb (fst r) 200 then status_code_is_zero (snd r)
              else Returned false) ;;
  if ok then ret tt else report.

End WithCollaborators.
End Notification.

(** *** class MailNotification *)

Module MailNotification.
Section WithCollaborators.

Import Notification.
Variable cfg : Config.
Variable w : World.

Local Open Scope io_scope.

Definition method : string := "mail".

Definition get_mail_addrs (phase : TicketPhase) (ticket : Ticket) : outcome string :=
  obind (get_approvers w ticket) (fun approvers =>
  let email_addrs :=
    ([ADMIN_EMAIL_ADDRS cfg]
       ++ map (get_user_email cfg) (ccs ticket)
       ++ map Some (PyStr.split PyStr.comma approvers))%list in
  obind (get_rule_actions w ticket "approver") (fun actions =>
  let email_addrs := (email_addrs ++ map (get_user_email cfg) actions)%list in
  let email_addrs :=
    if String.eqb (value phase) "approval" || String.eqb (value phase) "mark"
    then (email_addrs ++ [get_user_email cfg (submitter ticket)])%list
    else email_addrs in
  Returned (PyStr.join "," (keep_truthy email_addrs)))).

Definition send (phase : TicketPhase) (ticket : Ticket) : IO unit :=
  addrs <- lift (get_mail_addrs phase ticket) ;;
  tc <- lift (render w method phase ticket) ;;
  let title := fst tc in
  let content := snd tc in
  smtp_open cfg w ;;
  (if PyStr.truthy (SMTP_CREDENTIALS cfg) then
     match PyStr.split PyStr.colon (PyStr.fmt (SMTP_CREDENTIALS cfg)) with
     | [user; password] => smtp_do_login w user password
     | _ => raise ValueError
     end
   else ret tt) ;;
  set_content w (PyStr.strip content) ;;
  set_header w "Subject" (NOTIFICATION_TITLE_PREFIX cfg ++ title) ;;
  set_header w "From" (FROM_EMAIL_ADDR cfg) ;;
  set_header w "To" addrs ;;
  let msg := {| mail_content := PyStr.strip content;
                mail_subject := NOTIFICATION_TITLE_PREFIX cfg ++ title;
                mail_from := FROM_EMAIL_ADDR cfg;
                mail_to := addrs |} in
  try_finally (smtp_do_send_message w msg) (smtp_do_quit w).

End WithCollaborators.
End MailNotification.

(** *** class WebhookNotification *)

Module WebhookNotification.
Section WithCollaborators.

Import Notification.
Variable cfg : Config.
Variable w : World.

Local Open Scope io_scope.

Definition method : string := "webhook".

Definition get_color (phase : TicketPhase) (ticket : Ticket) : string :=
  if negb (String.eqb (value phase) "request") then color ticket
  else if tri_truthy (is_approved ticket) then "#17a2b8"
  else "#ffc107".

Definition send (phase : TicketPhase) (ticket : Ticket) : IO unit :=
  if negb (PyStr.truthy (WEBHOOK_URL cfg)) then ret tt
  else
    tc <- lift (render w method phase ticket) ;;
    let title := fst tc in
    let content := snd tc in
    let link := web_url ticket in
    let msg := {| wh_from := "helpdesk";
                  wh_title := title;
                  wh_link := link;
                  wh_color := get_color phase ticket;
                  wh_text := title ++ PyStr.nl ++ link ++ PyStr.nl ++ content;
                  wh_markdown := content |} in
    r <- post w (PyStr.fmt (WEBHOOK_URL cfg)) (JsonWebhook msg) (Some 3%Z) ;;
    raise_for_status r.

End WithCollaborators.
End WebhookNotification.

(** *** class LarkWebhookNotification *)

Module LarkWebhookNotification.
Section WithCollaborators.

Import Notification.
Variable cfg : Config.
Variable w : World.

Local Open Scope io_scope.

Definition render (phase : TicketPhase) (ticket : Ticket) : string * string :=
  let content := "[Ticket url](" ++ web_url ticket ++ ")" ++ PyStr.nl in
  let content := content ++ "Parameters:" ++ PyStr.nl in
  let content :=
    fold_left (fun content nv =>
                 content ++ "  " ++ fst nv ++ ": " ++ snd nv ++ PyStr.nl)
      (params ticket) content in
  let content := content ++ "Request time: " ++ created_at ticket ++ PyStr.nl in
  if phase_eqb phase REQUEST then
    let title := "[helpdesk]" ++ submitter ticket ++ "  requested to " ++ title ticket in
    let content := content ++ "Reason: " ++ PyStr.fmt (reason ticket) ++ PyStr.nl in
    let content :=
      if is_auto_approved ticket then content ++ "auto approved" ++ PyStr.nl
      else content in
    (title, content)
  else if phase_eqb phase APPROVAL then
    if tri_truthy (is_approved ticket) then
      let title := "[helpdesk approved]" ++ submitter ticket ++ "'s request to "
                     ++ title ticket ++ " was approved " ++ "by "
                     ++ PyStr.fmt (confirmed_by ticket) in
      let content := content ++ "Reason: " ++ PyStr.fmt (reason ticket) ++ PyStr.nl in
      (title, content)
    else
      let title := "[helpdesk approved]" ++ submitter ticket ++ "'s request to "
                     ++ title ticket ++ " was rejected " ++ "by "
                     ++ PyStr.fmt (confirmed_by ticket) in
      let content :=
        if negb (optstr_eqb (reason ticket) (ann_reason (annotation ticket)))
        then content ++ "Reject reason: " ++ PyStr.fmt (reason ticket)
        else content in
      (title, content)
  else if phase_eqb phase MARK then
    let title := "[helpdesk approved]" ++ submitter ticket ++ "'s request to "
                   ++ title ticket ++ " was marked " ++ status ticket in
    (title, content)
  else
    let title := "[helpdesk]" ++ submitter ticket ++ "  " ++ value phase ++ "ed "
                   ++ title ticket in
    (title, content).

(** The card [msg] that [LarkWebhookNotification.send] builds. *)
Definition card (phase : TicketPhase) (ticket : Ticket) : Card :=
  let tc := render phase ticket in
  let title := fst tc in
  let content := snd tc in
  let elements := [MarkdownElement content] in
  let elements :=
    if phase_eqb phase REQUEST && negb (is_auto_approved ticket) then
      (elements ++
         [ActionElement
            [ {| btn_tag := "button"; btn_text_tag := "plain_text";
                 btn_text_content := "Approve"; btn_type := "primary";
                 btn_url := web_url ticket ++ "/approve" |};
              {| btn_tag := "button"; btn_text_tag := "plain_text";
                 btn_text_content := "Reject"; btn_type := "danger";
                 btn_url := web_url ticket ++ "/reject" |} ]])%list
    else elements in
  {| card_wide_screen_mode := true;
     card_elements := elements;
     card_header_title_content := title;
     card_header_title_tag := "plain_text" |}.

Definition send (phase : TicketPhase) (ticket : Ticket) : IO unit :=
  if negb (PyStr.truthy (LARK_WEBHOOK_URL cfg)) then ret tt
  else
    let msg := card phase ticket in
    r <- post w (PyStr.fmt (LARK_WEBHOOK_URL cfg)) (JsonLark "interactive" msg) None ;;
    check_response r.

End WithCollaborators.
End LarkWebhookNotification.

(** *** class WebhookEventNotification *)

Module WebhookEventNotification.
Section WithCollaborators.

Import Notification.
Variable cfg : Config.
Variable w : World.

Local Open Scope io_scope.

(** One iteration of the loop over [enumerate(nodes)]; the state is
    [(next_node, notify_type)]. *)
Definition event_step (current : option string) (nodes : list Node)
  (st : outcome (option string * option string)) (ix : nat * Node)
  : outcome (option string * option string) :=
  obind st (fun vars =>
  let index := fst ix in
  let node := snd ix in
  if optstr_eqb current (node_name node) then
    obind
      (if negb (Z.eqb (Z.of_nat index) (Z.of_nat (length nodes) - 1)) then
         match nth_error nodes (index + 1) with
         | Some n => Returned (node_name n)
         | None => Raised IndexError
         end
       else Returned (Some ""))
      (fun next_node => Returned (next_node, node_node_type node))
  else Returned vars).

Definition event_scan (current : option string) (nodes : list Node)
  : outcome (option string * option string) :=
  fold_left (event_step current nodes) (enumerate nodes)
    (Returned (Some "", Some "")).

Definition render (phase : TicketPhase) (ticket : Ticket)
  : outcome NotifyMessage :=
  match ann_nodes (annotation ticket) with
  | None => Raised TypeError
  | Some nodes =>
      obind (event_scan (ann_current_node (annotation ticket)) nodes)
        (fun vars =>
           Returned
             {| nm_phase := value phase;
                nm_title := title ticket;
                nm_ticket_url := web_url ticket;
                nm_status := status ticket;
                nm_is_approved := py_or (of_tristate (is_approved ticket)) (PBool false);
                nm_submitter := submitter ticket;
                nm_params := params ticket;
                nm_request_time := created_at ticket;
                nm_reason := py_or (of_optstr (reason ticket)) (PStr "");
                nm_approval_flow := ann_policy (annotation ticket);
                nm_current_node := ann_current_node (annotation ticket);
                nm_approvers := ann_approvers (annotation ticket);
                nm_next_node := fst vars;
                nm_approval_log := ann_approval_log (annotation ticket);
                nm_notify_type := snd vars |})
  end.

Definition send (phase : TicketPhase) (ticket : Ticket) : IO unit :=
  if negb (PyStr.truthy (WEBHOOK_EVENT_URL cfg)) then ret tt
  else
    message <- lift (render phase ticket) ;;
    emit (EvPrint message) ;;
    r <- post w (PyStr.fmt (WEBHOOK_EVENT_URL cfg)) (DataEvent message) None ;;
    check_response r.

End WithCollaborators.
End WebhookEventNotification.

(* ================================================================= *)
(** ** Reference definitions the code is compared with *)

(** The result of the loop of [WebhookEventNotification.render], read off
    the list itself: every node named [current] overwrites the pair with the
    name of its successor (or the empty string when it has none) and its own
    [node_type]. *)
Fixpoint scan_nodes (current : option string) (l : list Node)
  (vars : option string * option string) : option string * option string :=
  match l with
  | [] => vars
  | node :: rest =>
      scan_nodes current rest
        (if optstr_eqb current (node_name node)
         then (match rest with
               | [] => Some ""
               | following :: _ => node_name following
               end, node_node_type node)
         else vars)
  end.

(** The header every Lark card content starts with: the ticket URL, one
    line per parameter, the request time. *)
Definition param_line (nv : string * string) : string :=
  "  " ++ fst nv ++ ": " ++ snd nv ++ PyStr.nl.

Definition common_header (ticket : Ticket) : string :=
  "[Ticket url](" ++ web_url ticket ++ ")" ++ PyStr.nl
  ++ "Parameters:" ++ PyStr.nl
  ++ String.concat "" (map param_line (params ticket))
  ++ "Request time: " ++ created_at ticket ++ PyStr.nl.

(** [content] has [line] as one of its lines. *)
Definition has_line (line content : string) : Prop :=
  exists before after,
    content = before ++ line ++ PyStr.nl ++ after /\
    (before = "" \/ exists b, before = b ++ PyStr.nl).

(** The buttons of a card's action elements, in order. *)
Definition action_buttons (c : Card) : list Button :=
  flat_map (fun e => match e with
                     | ActionElement actions => actions
                     | MarkdownElement _ => []
                     end) (card_elements c).

(** The addresses [get_mail_addrs] collects before filtering and joining. *)
Definition recipients (cfg : Config) (phase : TicketPhase) (ticket : Ticket)
  (approvers : string) (actions : list string) : list (option string) :=
  ([ADMIN_EMAIL_ADDRS cfg]
     ++ map (get_user_email cfg) (ccs ticket)
     ++ map Some (PyStr.split PyStr.comma approvers)
     ++ map (get_user_email cfg) actions
     ++ (if String.eqb (value phase) "approval" || String.eqb (value phase) "mark"
         then [get_user_email cfg (submitter ticket)] else []))%list.

(* ================================================================= *)
(** ** Concrete tickets, configurations and collaborators *)

Module Sample.

Definition nodes_abc : list Node :=
  [ {| node_name := Some "A"; node_node_type := Some "approval" |};
    {| node_name := Some "B"; node_node_type := Some "cc" |};
    {| node_name := Some "C"; node_node_type := Some "approval" |} ].

Definition ann (current : string) : Annotation :=
  {| ann_current_node := Some current;
     ann_nodes := Some nodes_abc;
     ann_policy := JStr "default";
     ann_approvers := JStr "alice,bob";
     ann_approval_log := JArr [];
     ann_reason := Some "need access" |}.

Definition ticket : Ticket :=
  {| title := "restart web";
     submitter := "carol";
     ccs := ["dave"; "ghost"];
     reason := Some "need access";
     status := "pending";
     created_at := "2024-01-01 00:00:00";
     confirmed_by := None;
     is_approved := None;
     is_auto_approved := false;
     web_url := "https://hd/ticket/1";
     params := [("host", "web1"); ("force", "yes")];
     color := "#28a745";
     annotation := ann "B" |}.

Definition with_annotation (a : Annotation) (t : Ticket) : Ticket :=
  {| title := title t; submitter := submitter t; ccs := ccs t;
     reason := reason t; status := status t; created_at := created_at t;
     confirmed_by := confirmed_by t; is_approved := is_approved t;
     is_auto_approved := is_auto_approved t; web_url := web_url t;
     params := params t; color := color t; annotation := a |}.

Definition rejected (why : string) (t : Ticket) : Ticket :=
  {| title := title t; submitter := submitter t; ccs := ccs t;
     reason := Some why; status := "rejected"; created_at := created_at t;
     confirmed_by := Some "erin"; is_approved := Some false;
     is_auto_approved := is_auto_approved t; web_url := web_url t;
     params := params t; color := color t; annotation := annotation t |}.

Definition auto_approved (t : Ticket) : Ticket :=
  {| title := title t; submitter := submitter t; ccs := ccs t;
     reason := reason t; status := status t; created_at := created_at t;
     confirmed_by := confirmed_by t; is_approved := Some true;
     is_auto_approved := true; web_url := web_url t;
     params := params t; color := color t; annotation := annotation t |}.

(** The identifier-to-email lookup: [ghost] has no address. *)
Definition user_email (u : string) : option string :=
  if String.eqb u "ghost" then None else Some (u ++ "@example.com").

Definition cfg : Config :=
  {| NOTIFICATION_TITLE_PREFIX := "[helpdesk] ";
     WEBHOOK_URL := Some "https://hooks.example.com/generic";
     LARK_WEBHOOK_URL := Some "https://hooks.example.com/lark";
     WEBHOOK_EVENT_URL := Some "https://hooks.example.com/event";
     ADMIN_EMAIL_ADDRS := Some "admin@example.com";
     FROM_EMAIL_ADDR := "helpdesk@example.com";
     SMTP_SERVER := "smtp.example.com";
     SMTP_SERVER_PORT := 465;
     SMTP_SSL := true;
     SMTP_CREDENTIALS := Some "helpdesk:secret";
     get_user_email := user_email |}.

(** No webhook URL is set. *)
Definition cfg_no_urls : Config :=
  {| NOTIFICATION_TITLE_PREFIX := "[helpdesk] ";
     WEBHOOK_URL := None;
     LARK_WEBHOOK_URL := Some "";
     WEBHOOK_EVENT_URL := None;
     ADMIN_EMAIL_ADDRS := Some "admin@example.com";
     FROM_EMAIL_ADDR := "helpdesk@example.com";
     SMTP_SERVER := "smtp.example.com";
     SMTP_SERVER_PORT := 465;
     SMTP_SSL := true;
     SMTP_CREDENTIALS := None;
     get_user_email := user_email |}.

(** A template output with both elements, and its tree. *)
Definition full_text : string :=
  "<message><title>Ticket requested</title><content>Please review</content></message>".

Definition full_tree : Element :=
  Elem "message" None
    [ Elem "title" (Some "Ticket requested") [] None;
      Elem "content" (Some "Please review") [] None ] None.

(** A template output without any title element, and its tree. *)
Definition untitled_text : string :=
  "<message><content>Please review</content></message>".

Definition untitled_tree : Element :=
  Elem "message" None [ Elem "content" (Some "Please review") [] None ] None.

(** The parser on the two documents above; anything else is rejected. *)
Definition parse (s : string) : option Element :=
  if String.eqb s full_text then Some full_tree
  else if String.eqb s untitled_text then Some untitled_tree
  else None.

(** A world in which every collaborator answers and the template engine
    yields [text], with [PyStr.nl] around it as a template file has. *)
Definition world (text : string) (answer : http_result) : World :=
  {| template_render := fun _ _ => Returned (PyStr.nl ++ text ++ PyStr.nl);
     fromstring := parse;
     get_flow_policy := fun _ => Returned (fun _ => "alice@example.com,,bob@example.com");
     get_rule_actions := fun _ _ => Returned ["frank"; "ghost"];
     smtp_connect := None;
     smtp_login := None;
     smtp_send_message := None;
     smtp_quit := None;
     email_set_content := fun _ => None;
     email_header := fun _ _ => None;
     http := answer |}.

Definition ok_response : http_result :=
  Response 200 (Some (JObj [("StatusCode", JNum 0); ("StatusMessage", JStr "success")])).

(** The SMTP server rejects the credentials. *)
Definition world_bad_login : World :=
  {| template_render := template_render (world full_text ok_response);
     fromstring := parse;
     get_flow_policy := get_flow_policy (world full_text ok_response);
     get_rule_actions := get_rule_actions (world full_text ok_response);
     smtp_connect := None;
     smtp_login := Some SMTPAuthenticationError;
     smtp_send_message := None;
     smtp_quit := None;
     email_set_content := fun _ => None;
     email_header := fun _ _ => None;
     http := ok_response |}.

(** The SMTP server refuses the message. *)
Definition world_bad_delivery : World :=
  {| template_render := template_render (world full_text ok_response);
     fromstring := parse;
     get_flow_policy := get_flow_policy (world full_text ok_response);
     get_rule_actions := get_rule_actions (world full_text ok_response);
     smtp_connect := None;
     smtp_login := None;
     smtp_send_message := Some SMTPException;
     smtp_quit := None;
     email_set_content := fun _ => None;
     email_header := fun _ _ => None;
     http := ok_response |}.

(** Nothing works: no template, no parser, no policy engine, no network. *)
Definition world_broken : World :=
  {| template_render := fun _ _ => Raised TemplateNotFound;
     fromstring := fun _ => None;
     get_flow_policy := fun _ => Raised PolicyLookupError;
     get_rule_actions := fun _ _ => Raised PolicyLookupError;
     smtp_connect := Some SMTPConnectError;
     smtp_login := Some SMTPAuthenticationError;
     smtp_send_message := Some SMTPException;
     smtp_quit := Some SMTPException;
     email_set_content := fun _ => Some ValueError;
     email_header := fun _ _ => Some ValueError;
     http := PostRaises ConnectionError |}.

(** A ticket whose annotation carries no [nodes]. *)
Definition ticket_without_nodes : Ticket :=
  with_annotation
    {| ann_current_node := None; ann_nodes := None; ann_policy := JNull;
       ann_approvers := JNull; ann_approval_log := JNull; ann_reason := None |}
    ticket.

End Sample.

(* ================================================================= *)
(** ** Further observations and scenarios *)

(** [s] consists of whitespace code points only. *)
Fixpoint all_space (s : string) : bool :=
  match s with
  | EmptyString => true
  | String a r1 =>
      if PyStr.is_space1 a then all_space r1
      else match r1 with
           | EmptyString => false
           | String b r2 =>
               if PyStr.is_space2 a b then all_space r2
               else match r2 with
                    | EmptyString => false
                    | String c r3 => PyStr.is_space3 a b c && all_space r3
                    end
           end
  end.




(** Sequences of whitespace code points. *)
Inductive Spaces : string -> Prop :=
| Spaces_nil : Spaces ""
| Spaces_1 a r : PyStr.is_space1 a = true -> Spaces r -> Spaces (String a r)
| Spaces_2 a b r : PyStr.is_space2 a b = true -> Spaces r -> Spaces (String a (String b r))
| Spaces_3 a b c r :
    PyStr.is_space3 a b c = true -> Spaces r ->
    Spaces (String a (String b (String c r))).

(** A byte that begins the encoding of a whitespace code point. *)
Definition lead (a : ascii) : bool :=
  let n := nat_of_ascii a in
  PyStr.is_space1 a || (n =? 194)%nat || (n =? 225)%nat || (n =? 226)%nat || (n =? 227)%nat.

(** The email package accepts the body and the three headers [send] sets:
    the [EmailMessage] is built without an exception. *)
Definition message_accepted (cfg : Config) (w : World) (tc : string * string)
  (addrs : string) : Prop :=
  email_set_content w (PyStr.strip (snd tc)) = None /\
  email_header w "Subject" (NOTIFICATION_TITLE_PREFIX cfg ++ fst tc) = None /\
  email_header w "From" (FROM_EMAIL_ADDR cfg) = None /\
  email_header w "To" addrs = None.

Definition is_smtp (ev : event) : bool :=
  match ev with
  | EvSmtpOpen _ _ _ | EvSmtpLogin _ _ | EvSmtpSendMessage _ | EvSmtpQuit => true
  | EvPost _ _ _ | EvPrint _ | EvReport => false
  end.

Definition is_smtp_login (ev : event) : bool :=
  match ev with EvSmtpLogin _ _ => true | _ => false end.

Module Scenario.

(** A template output whose title element is empty, and its tree: an
    element without character data has [text = None]. *)
Definition textless_title_text : string :=
  "<message><title/><content>Please review</content></message>".

Definition textless_title_tree : Element :=
  Elem "message" None
    [ Elem "title" None [] None;
      Elem "content" (Some "Please review") [] None ] None.

Definition parse (s : string) : option Element :=
  if String.eqb s textless_title_text then Some textless_title_tree
  else Sample.parse s.

(** A world given by the answer of each collaborator. *)
Definition make_world (template : outcome string)
  (policy : outcome (option string -> string)) (actions : outcome (list string))
  (connect login deliver quit : option exn) (answer : http_result) : World :=
  {| template_render := fun _ _ => template;
     fromstring := parse;
     get_flow_policy := fun _ => policy;
     get_rule_actions := fun _ _ => actions;
     smtp_connect := connect;
     smtp_login := login;
     smtp_send_message := deliver;
     smtp_quit := quit;
     email_set_content := fun _ => None;
     email_header := fun _ _ => None;
     http := answer |}.

Definition approvers_of (current : option string) : string :=
  "alice@example.com,,bob@example.com".

(** Everything answers; the template engine yields [text] as it is. *)
Definition world_exact (text : string) (answer : http_result) : World :=
  make_world (Returned text) (Returned approvers_of) (Returned ["frank"; "ghost"])
    None None None None answer.

(** U+00A0 (no-break space) and U+3000 (ideographic space), as encoded. *)
Definition nbsp : string :=
  String (ascii_of_nat 194) (String (ascii_of_nat 160) EmptyString).

Definition ideographic_space : string :=
  String (ascii_of_nat 227)
    (String (ascii_of_nat 128) (String (ascii_of_nat 128) EmptyString)).

(** Everything answers; the template output is surrounded by whitespace. *)
Definition world_padded (text : string) (answer : http_result) : World :=
  make_world
    (Returned ((PyStr.nl ++ nbsp ++ " ") ++ text ++ (ideographic_space ++ PyStr.nl)))
    (Returned approvers_of) (Returned ["frank"; "ghost"])
    None None None None answer.

(** Credentials with a colon inside the password. *)
Definition cfg_colon_in_password : Config :=
  {| NOTIFICATION_TITLE_PREFIX := "[helpdesk] ";
     WEBHOOK_URL := Some "https://hooks.example.com/generic";
     LARK_WEBHOOK_URL := Some "https://hooks.example.com/lark";
     WEBHOOK_EVENT_URL := Some "https://hooks.example.com/event";
     ADMIN_EMAIL_ADDRS := Some "admin@example.com";
     FROM_EMAIL_ADDR := "helpdesk@example.com";
     SMTP_SERVER := "smtp.example.com";
     SMTP_SERVER_PORT := 25;
     SMTP_SSL := false;
     SMTP_CREDENTIALS := Some "helpdesk:se:cret";
     get_user_email := Sample.user_email |}.

(** The admin setting lists two addresses and has an empty item between
    them. *)
Definition cfg_admin_list : Config :=
  {| NOTIFICATION_TITLE_PREFIX := "[helpdesk] ";
     WEBHOOK_URL := None;
     LARK_WEBHOOK_URL := None;
     WEBHOOK_EVENT_URL := None;
     ADMIN_EMAIL_ADDRS := Some "root@example.com,,ops@example.com";
     FROM_EMAIL_ADDR := "helpdesk@example.com";
     SMTP_SERVER := "smtp.example.com";
     SMTP_SERVER_PORT := 25;
     SMTP_SSL := false;
     SMTP_CREDENTIALS := None;
     get_user_email := Sample.user_email |}.

(** A ticket approved by [erin]. *)
Definition approved (t : Ticket) : Ticket :=
  {| title := title t; submitter := submitter t; ccs := ccs t;
     reason := reason t; status := "approved"; created_at := created_at t;
     confirmed_by := Some "erin"; is_approved := Some true;
     is_auto_approved := is_auto_approved t; web_url := web_url t;
     params := params t; color := color t; annotation := annotation t |}.

(** A ticket without a reason. *)
Definition without_reason (t : Ticket) : Ticket :=
  {| title := title t; submitter := submitter t; ccs := ccs t;
     reason := None; status := status t; created_at := created_at t;
     confirmed_by := confirmed_by t; is_approved := is_approved t;
     is_auto_approved := is_auto_approved t; web_url := web_url t;
     params := params t; color := color t; annotation := annotation t |}.

Definition CLOSE : TicketPhase := {| value := "close" |}.


End Scenario.



(* ================================================================= *)
(** ** Facts about strings *)

Lemma append_nil_r (s : string) : s ++ "" = s.
Proof. induction s as [| c s IH]; simpl; [reflexivity | now rewrite IH]. Qed.

Lemma append_assoc (a b c : string) : (a ++ b) ++ c = a ++ (b ++ c).
Proof. induction a as [| x a IH]; simpl; [reflexivity | now rewrite IH]. Qed.

Lemma append_empty (a b : string) : a ++ b = "" -> a = "" /\ b = "".
Proof. destruct a; simpl; [auto | discriminate]. Qed.

(* ================================================================= *)
(** ** Properties of the template renderer *)

Section RenderFacts.

Import Notification.

Lemma obind_returned {A B} (m : outcome A) (k : A -> outcome B) (b : B) :
  obind m k = Returned b -> exists a, m = Returned a /\ k a = Returned b.
Proof.
  destruct m as [a | e]; simpl; intros H.
  - exists a; split; [reflexivity | exact H].
  - discriminate H.
Qed.

(** [join_texts] returns exactly when every piece has a text, and then it
    returns their concatenation. *)
Lemma join_texts_returned (pieces : list Element) (s : string) :
  join_texts pieces = Returned s <->
  exists texts, map text_of pieces = map Some texts /\ s = String.concat "" texts.
Proof.
  revert s; induction pieces as [| p ps IH]; intros s; simpl.
  - split.
    + intros H; injection H as <-. exists []; split; reflexivity.
    + intros [[| x xs] [Hm ->]]; [reflexivity | discriminate Hm].
  - destruct (text_of p) as [x |] eqn:Hp.
    + split.
      * intros H. apply obind_returned in H as [r [Hr Hs]].
        injection Hs as <-. apply IH in Hr as [texts [Hm ->]].
        exists (x :: texts); split; [simpl; now rewrite Hm |].
        destruct texts; simpl; [now rewrite append_nil_r | reflexivity].
      * intros [[| y ys] [Hm ->]]; [discriminate Hm |].
        simpl in Hm; injection Hm as -> Hm.
        assert (Hj : join_texts ps = Returned (String.concat "" ys))
          by (apply IH; exists ys; split; [exact Hm | reflexivity]).
        rewrite Hj; simpl. destruct ys; simpl; [now rewrite append_nil_r | reflexivity].
    + split; [discriminate |].
      intros [[| y ys] [Hm _]]; discriminate Hm.
Qed.

(** A concatenation is empty exactly when every part is. *)
Lemma concat_empty (texts : list string) :
  String.concat "" texts = "" <-> Forall (fun x => x = "") texts.
Proof.
  induction texts as [| x xs IH]; simpl.
  - split; [constructor | reflexivity].
  - destruct xs as [| y ys].
    + split; [intros ->; repeat constructor | intros H; now inversion H].
    + simpl in *. split.
      * intros H. apply append_empty in H as [-> H]. constructor; [reflexivity | now apply IH].
      * intros H. inversion H as [| ? ? -> Hr]; subst. now apply IH.
Qed.

Lemma render_unfold (w : World) (method : string) (phase : TicketPhase)
  (ticket : Ticket) (message : string) :
  template_render w (method ++ "/" ++ value phase ++ ".j2") ticket = Returned message ->
  render w method phase ticket =
    match fromstring w (PyStr.strip message) with
    | None => Raised ParseError
    | Some tree =>
        obind (join_texts (findall "title" tree)) (fun title =>
        obind (join_texts (findall "content" tree)) (fun content =>
        Returned (title, content)))
    end.
Proof. intros H; unfold render; rewrite H; reflexivity. Qed.

End RenderFacts.

(** C1, as stated, fails: on a template output without any title element
    the renderer returns an empty title together with the content, and no
    error. *)
Lemma render_empty_title_not_an_error :
  ~ (forall (w : World) (method : string) (phase : TicketPhase) (ticket : Ticket),
        match Notification.render w method phase ticket with
        | Returned (title, content) => title <> "" /\ content <> ""
        | Raised _ => True
        end).
Proof.
  intros H.
  specialize (H (Sample.world Sample.untitled_text Sample.ok_response)
                MailNotification.method REQUEST Sample.ticket).
  vm_compute in H. destruct H as [H _]. apply H; reflexivity.
Qed.

(** C1, amended: when the template engine yields a text, [render] raises
    [ParseError] if the text is unparsable; if it parses, [render] returns
    exactly when every title and content child of the root has a text, the
    result being the concatenation of the title texts and of the content
    texts.  So zero title (or content) elements give an empty title (or
    content) without error, and the returned title (content) is empty only
    if every matched element's text is. *)
Theorem render_result (w : World) (method : string) (phase : TicketPhase)
  (ticket : Ticket) (message : string) :
  template_render w (method ++ "/" ++ value phase ++ ".j2") ticket = Returned message ->
  (fromstring w (PyStr.strip message) = None ->
   Notification.render w method phase ticket = Raised ParseError) /\
  (forall tree, fromstring w (PyStr.strip message) = Some tree ->
     (forall t c,
        Notification.render w method phase ticket = Returned (t, c) <->
        exists ts cs,
          map text_of (findall "title" tree) = map Some ts /\
          map text_of (findall "content" tree) = map Some cs /\
          t = String.concat "" ts /\ c = String.concat "" cs) /\
     (forall t c,
        Notification.render w method phase ticket = Returned (t, c) ->
        (findall "title" tree = [] -> t = "") /\
        (findall "content" tree = [] -> c = "") /\
        (t = "" -> Forall (fun p => text_of p = Some "") (findall "title" tree)) /\
        (c = "" -> Forall (fun p => text_of p = Some "") (findall "content" tree)))).
Proof.
  intros Hmsg. rewrite (render_unfold _ _ _ _ Hmsg).
  split; [intros ->; reflexivity |].
  intros tree ->.
  assert (Hiff : forall t c,
    obind (join_texts (findall "title" tree)) (fun title =>
      obind (join_texts (findall "content" tree)) (fun content =>
        Returned (title, content))) = Returned (t, c) <->
    exists ts cs,
      map text_of (findall "title" tree) = map Some ts /\
      map text_of (findall "content" tree) = map Some cs /\
      t = String.concat "" ts /\ c = String.concat "" cs).
  { intros t c; split.
    - intros H. apply obind_returned in H as [t' [Ht H]].
      apply obind_returned in H as [c' [Hc H]]. injection H as <- <-.
      apply join_texts_returned in Ht as [ts [Hts ->]].
      apply join_texts_returned in Hc as [cs [Hcs ->]].
      exists ts, cs; auto.
    - intros [ts [cs [Hts [Hcs [-> ->]]]]].
      assert (Ht : join_texts (findall "title" tree) = Returned (String.concat "" ts))
        by (apply join_texts_returned; eauto).
      assert (Hc : join_texts (findall "content" tree) = Returned (String.concat "" cs))
        by (apply join_texts_returned; eauto).
      rewrite Ht; simpl; rewrite Hc; reflexivity. }
  split; [exact Hiff |].
  intros t c H. apply Hiff in H as [ts [cs [Hts [Hcs [-> ->]]]]].
  assert (Hall : forall (ps : list Element) (xs : list string),
             map text_of ps = map Some xs -> Forall (fun x => x = "") xs ->
             Forall (fun p => text_of p = Some "") ps).
  { induction ps as [| p ps IH]; intros [| x xs] Hm Hx; try discriminate Hm;
      [constructor |].
    simpl in Hm; injection Hm as Hp Hm. inversion Hx as [| ? ? Hx0 Hxs]; subst.
    constructor; [exact Hp | eapply IH; eauto]. }
  repeat split.
  - intros E; rewrite E in Hts. destruct ts; [reflexivity | discriminate Hts].
  - intros E; rewrite E in Hcs. destruct cs; [reflexivity | discriminate Hcs].
  - intros E. apply concat_empty in E. eapply Hall; eauto.
  - intros E. apply concat_empty in E. eapply Hall; eauto.
Qed.

Lemma render_result_witness :
  Notification.render (Sample.world Sample.untitled_text Sample.ok_response)
    "mail" REQUEST Sample.ticket = Returned ("", "Please review")
  /\ findall "title" Sample.untitled_tree = [].
Proof.
  split; [| reflexivity].
  pose proof (render_result (Sample.world Sample.untitled_text Sample.ok_response)
                "mail" REQUEST Sample.ticket eq_refl) as [_ H].
  specialize (H Sample.untitled_tree eq_refl) as [H _].
  apply H. exists [], ["Please review"]. repeat split; reflexivity.
Defined.

(* ================================================================= *)
(** ** The SMTP session of [MailNotification.send] *)

Section MailSession.

Import Notification MailNotification.
Variable cfg : Config.
Variable w : World.
Variables (phase : TicketPhase) (ticket : Ticket).

(** The [try ... finally] around [send_message] runs [quit] whatever
    [send_message] does. *)
Lemma try_finally_quits (msg : EmailMessage) :
  count is_smtp_quit
    (trace_of (try_finally (smtp_do_send_message w msg) (smtp_do_quit w))) = 1.
Proof.
  unfold smtp_do_send_message, smtp_do_quit, attempt.
  destruct (smtp_send_message w), (smtp_quit w); reflexivity.
Qed.

(** When nothing fails before [send_message] is reached, the session is
    closed once, whether or not the delivery succeeds. *)
Lemma send_quits_once_after_login (addrs : string) (tc : string * string) :
  get_mail_addrs cfg w phase ticket = Returned addrs ->
  render w method phase ticket = Returned tc ->
  smtp_connect w = None ->
  (PyStr.truthy (SMTP_CREDENTIALS cfg) = true ->
   smtp_login w = None /\
   exists user password,
     PyStr.split PyStr.colon (PyStr.fmt (SMTP_CREDENTIALS cfg)) = [user; password]) ->
  message_accepted cfg w tc addrs ->
  count is_smtp_open (trace_of (send cfg w phase ticket)) = 1 /\
  count is_smtp_quit (trace_of (send cfg w phase ticket)) = 1 /\
  (smtp_quit w = None ->
   outcome_of (send cfg w phase ticket) =
     match smtp_send_message w with Some e => Raised e | None => Returned tt end).
Proof.
  intros Ha Hr Hc Hl [Hbody [Hsub [Hfrom Hto]]].
  unfold send, smtp_open, set_content, set_header. rewrite Ha, Hr, Hc. simpl.
  rewrite Hbody, Hsub, Hfrom, Hto.
  destruct (PyStr.truthy (SMTP_CREDENTIALS cfg)).
  - destruct (Hl eq_refl) as [Hlog [user [password Hs]]]. rewrite Hs.
    unfold smtp_do_login, smtp_do_send_message, smtp_do_quit, attempt.
    rewrite Hlog. simpl.
    destruct (smtp_send_message w), (smtp_quit w); simpl;
      repeat split; try reflexivity; discriminate.
  - unfold smtp_do_send_message, smtp_do_quit, attempt. simpl.
    destruct (smtp_send_message w), (smtp_quit w); simpl;
      repeat split; try reflexivity; discriminate.
Qed.

(** When the email package rejects the subject, [send] ends there: the
    session is open, the login step is done, no message is sent and [quit]
    is not called. *)
Lemma send_header_rejected_leaves_session_open
  (addrs : string) (tc : string * string) (e : exn) :
  get_mail_addrs cfg w phase ticket = Returned addrs ->
  render w method phase ticket = Returned tc ->
  smtp_connect w = None ->
  PyStr.truthy (SMTP_CREDENTIALS cfg) = false ->
  email_set_content w (PyStr.strip (snd tc)) = None ->
  email_header w "Subject" (NOTIFICATION_TITLE_PREFIX cfg ++ fst tc) = Some e ->
  send cfg w phase ticket =
    ([EvSmtpOpen (SMTP_SSL cfg) (SMTP_SERVER cfg) (SMTP_SERVER_PORT cfg)], Raised e).
Proof.
  intros Ha Hr Hc Ht Hb Hs. unfold send, smtp_open, set_content, set_header.
  rewrite Ha, Hr, Hc, Ht. simpl. rewrite Hb, Hs. reflexivity.
Qed.

(** When [login] raises, [send] ends there: the session was opened and
    [quit] is never called. *)
Lemma send_login_failure_leaves_session_open
  (addrs : string) (tc : string * string) (user password : string) (e : exn) :
  get_mail_addrs cfg w phase ticket = Returned addrs ->
  render w method phase ticket = Returned tc ->
  smtp_connect w = None ->
  PyStr.truthy (SMTP_CREDENTIALS cfg) = true ->
  PyStr.split PyStr.colon (PyStr.fmt (SMTP_CREDENTIALS cfg)) = [user; password] ->
  smtp_login w = Some e ->
  send cfg w phase ticket =
    ([EvSmtpOpen (SMTP_SSL cfg) (SMTP_SERVER cfg) (SMTP_SERVER_PORT cfg);
      EvSmtpLogin user password], Raised e).
Proof.
  intros Ha Hr Hc Ht Hs Hl. unfold send, smtp_open, smtp_do_login, attempt.
  rewrite Ha, Hr, Hc, Ht, Hs, Hl. reflexivity.
Qed.

End MailSession.

(** C2: the code departs from the claim on the authentication path.  With
    credentials configured and a server that rejects them, [send] opens the
    session, attempts the login and raises; [quit] is not called.  On the
    same configuration a delivery error does close the session. *)
Theorem mail_send_auth_error_skips_quit :
  MailNotification.send Sample.cfg Sample.world_bad_login APPROVAL Sample.ticket =
    ([EvSmtpOpen true "smtp.example.com" 465; EvSmtpLogin "helpdesk" "secret"],
     Raised SMTPAuthenticationError)
  /\ count is_smtp_open
       (trace_of (MailNotification.send Sample.cfg Sample.world_bad_login
                    APPROVAL Sample.ticket)) = 1
  /\ count is_smtp_quit
       (trace_of (MailNotification.send Sample.cfg Sample.world_bad_login
                    APPROVAL Sample.ticket)) = 0
  /\ outcome_of (MailNotification.send Sample.cfg Sample.world_bad_delivery
                   APPROVAL Sample.ticket) = Raised SMTPException
  /\ count is_smtp_quit
       (trace_of (MailNotification.send Sample.cfg Sample.world_bad_delivery
                    APPROVAL Sample.ticket)) = 1.
Proof. repeat split; vm_compute; reflexivity. Qed.

(* ================================================================= *)
(** ** Delivery over the Lark and event webhooks *)

Section BestEffortChannels.

Import Notification.
Variable cfg : Config.
Variable w : World.

(** A rejected response is reported once and nothing is raised. *)
Lemma check_response_rejected (status_code : Z) (body : option json) :
  rejected_response (Response status_code body) ->
  check_response (status_code, body) = ([EvReport], Returned tt).
Proof.
  intros H; inversion H as [s b Hs | fields v Hv Hz]; subst; unfold check_response; simpl.
  - destruct (Z.eqb_spec status_code 200) as [E | _]; [contradiction | reflexivity].
  - rewrite Hv; simpl. rewrite Hz. reflexivity.
Qed.

(** An accepted response: nothing reported, nothing raised. *)
Lemma check_response_accepted (fields : list (string * json)) (v : json) :
  lookup "StatusCode" fields = Some v -> py_eq_zero v = true ->
  check_response (200%Z, Some (JObj fields)) = ([], Returned tt).
Proof. intros Hv Hz; unfold check_response; simpl. rewrite Hv; simpl. now rewrite Hz. Qed.

End BestEffortChannels.

(** C3, as stated, fails: a connection failure and a 200 response that is
    not JSON both raise out of the Lark and of the event [send], and nothing
    is reported. *)
Lemma best_effort_send_can_raise :
  let down := Sample.world Sample.full_text (PostRaises ConnectionError) in
  let garbled := Sample.world Sample.full_text (Response 200 None) in
  PyStr.truthy (LARK_WEBHOOK_URL Sample.cfg) = true
  /\ PyStr.truthy (WEBHOOK_EVENT_URL Sample.cfg) = true
  /\ outcome_of (LarkWebhookNotification.send Sample.cfg down REQUEST Sample.ticket)
       = Raised ConnectionError
  /\ count is_report
       (trace_of (LarkWebhookNotification.send Sample.cfg down REQUEST Sample.ticket)) = 0
  /\ outcome_of (WebhookEventNotification.send Sample.cfg down REQUEST Sample.ticket)
       = Raised ConnectionError
  /\ count is_report
       (trace_of (WebhookEventNotification.send Sample.cfg down REQUEST Sample.ticket)) = 0
  /\ outcome_of (LarkWebhookNotification.send Sample.cfg garbled REQUEST Sample.ticket)
       = Raised JSONDecodeError
  /\ count is_report
       (trace_of (LarkWebhookNotification.send Sample.cfg garbled REQUEST Sample.ticket)) = 0
  /\ outcome_of (WebhookEventNotification.send Sample.cfg garbled REQUEST Sample.ticket)
       = Raised JSONDecodeError
  /\ count is_report
       (trace_of (WebhookEventNotification.send Sample.cfg garbled REQUEST Sample.ticket)) = 0.
Proof. repeat split; vm_compute; reflexivity. Qed.

(** C3, amended: with the destination URL configured, the Lark [send] does
    exactly the following, and so does the event [send] whenever its
    [render] returns (it prints the message first).  On a response whose
    status is not 200, or whose status is 200 with a JSON object carrying a
    non-zero [StatusCode], it posts, calls the reporting sink once and
    returns normally.  When the POST raises, or the response is a 200 whose
    body is not JSON, it posts and the exception leaves [send]: the
    reporting sink is not called. *)
Theorem best_effort_send_reports_rejection (cfg : Config) (w : World)
  (phase : TicketPhase) (ticket : Ticket) :
  (PyStr.truthy (LARK_WEBHOOK_URL cfg) = true ->
   let posted :=
     EvPost (PyStr.fmt (LARK_WEBHOOK_URL cfg))
       (JsonLark "interactive" (LarkWebhookNotification.card phase ticket)) None in
   (rejected_response (http w) ->
    LarkWebhookNotification.send cfg w phase ticket
      = ([posted; EvReport], Returned tt)) /\
   (forall e, http w = PostRaises e ->
    LarkWebhookNotification.send cfg w phase ticket = ([posted], Raised e)) /\
   (http w = Response 200 None ->
    LarkWebhookNotification.send cfg w phase ticket
      = ([posted], Raised JSONDecodeError))) /\
  (PyStr.truthy (WEBHOOK_EVENT_URL cfg) = true ->
   forall message, WebhookEventNotification.render phase ticket = Returned message ->
   let printed := EvPrint message in
   let posted :=
     EvPost (PyStr.fmt (WEBHOOK_EVENT_URL cfg)) (DataEvent message) None in
   (rejected_response (http w) ->
    WebhookEventNotification.send cfg w phase ticket
      = ([printed; posted; EvReport], Returned tt)) /\
   (forall e, http w = PostRaises e ->
    WebhookEventNotification.send cfg w phase ticket = ([printed; posted], Raised e)) /\
   (http w = Response 200 None ->
    WebhookEventNotification.send cfg w phase ticket
      = ([printed; posted], Raised JSONDecodeError))).
Proof.
  split.
  - intros Hurl posted. unfold LarkWebhookNotification.send, Notification.post.
    rewrite Hurl. cbn [negb]. split; [| split].
    + intros Hrej. destruct (http w) as [e | status_code body] eqn:Hw; [inversion Hrej |].
      simpl. rewrite (check_response_rejected Hrej). reflexivity.
    + intros e ->. reflexivity.
    + intros ->. reflexivity.
  - intros Hurl message Hm printed posted.
    unfold WebhookEventNotification.send, Notification.post.
    rewrite Hurl, Hm. cbn [negb]. split; [| split].
    + intros Hrej. destruct (http w) as [e | status_code body] eqn:Hw; [inversion Hrej |].
      simpl. rewrite (check_response_rejected Hrej). reflexivity.
    + intros e ->. reflexivity.
    + intros ->. reflexivity.
Qed.

Lemma best_effort_send_reports_rejection_witness :
  let refused := Sample.world Sample.full_text
                   (Response 200 (Some (JObj [("StatusCode", JNum 19001)]))) in
  let down := Sample.world Sample.full_text (PostRaises ConnectionError) in
  let garbled := Sample.world Sample.full_text (Response 200 None) in
  (outcome_of (LarkWebhookNotification.send Sample.cfg refused REQUEST Sample.ticket)
     = Returned tt /\
   count is_report
     (trace_of (LarkWebhookNotification.send Sample.cfg refused REQUEST Sample.ticket)) = 1) /\
  (outcome_of (WebhookEventNotification.send Sample.cfg refused REQUEST Sample.ticket)
     = Returned tt /\
   count is_report
     (trace_of (WebhookEventNotification.send Sample.cfg refused REQUEST Sample.ticket)) = 1) /\
  (outcome_of (LarkWebhookNotification.send Sample.cfg down REQUEST Sample.ticket)
     = Raised ConnectionError /\
   count is_report
     (trace_of (LarkWebhookNotification.send Sample.cfg down REQUEST Sample.ticket)) = 0) /\
  (outcome_of (WebhookEventNotification.send Sample.cfg garbled REQUEST Sample.ticket)
     = Raised JSONDecodeError /\
   count is_report
     (trace_of (WebhookEventNotification.send Sample.cfg garbled REQUEST Sample.ticket)) = 0).
Proof.
  intros refused down garbled.
  assert (Hrej : rejected_response (http refused)).
  { apply (@rejected_code [("StatusCode", JNum 19001)] (JNum 19001)); reflexivity. }
  destruct (best_effort_send_reports_rejection Sample.cfg refused REQUEST Sample.ticket)
    as [Hlark Hevent].
  destruct (Hlark eq_refl) as [Hl _].
  destruct (Hevent eq_refl _ eq_refl) as [He _].
  destruct (best_effort_send_reports_rejection Sample.cfg down REQUEST Sample.ticket)
    as [Hlark_down _].
  destruct (Hlark_down eq_refl) as [_ [Hd _]].
  destruct (best_effort_send_reports_rejection Sample.cfg garbled REQUEST Sample.ticket)
    as [_ Hevent_garbled].
  destruct (Hevent_garbled eq_refl _ eq_refl) as [_ [_ Hg]].
  rewrite (Hl Hrej), (He Hrej), (Hd ConnectionError eq_refl), (Hg eq_refl).
  repeat split.
Defined.

(* ================================================================= *)
(** ** Unconfigured destinations *)

(** C4: a webhook channel whose destination URL is falsy ([None] or the
    empty string) returns at once from [send]: no external action at all is
    performed (the template is not rendered, nothing is posted, nothing is
    reported) and nothing is raised, whatever the collaborators would do. *)
Theorem unconfigured_send_is_noop (cfg : Config) (w : World)
  (phase : TicketPhase) (ticket : Ticket) :
  (PyStr.truthy (WEBHOOK_URL cfg) = false ->
   WebhookNotification.send cfg w phase ticket = ([], Returned tt)) /\
  (PyStr.truthy (LARK_WEBHOOK_URL cfg) = false ->
   LarkWebhookNotification.send cfg w phase ticket = ([], Returned tt)) /\
  (PyStr.truthy (WEBHOOK_EVENT_URL cfg) = false ->
   WebhookEventNotification.send cfg w phase ticket = ([], Returned tt)).
Proof.
  repeat split; intros H.
  - unfold WebhookNotification.send; now rewrite H.
  - unfold LarkWebhookNotification.send; now rewrite H.
  - unfold WebhookEventNotification.send; now rewrite H.
Qed.

Lemma unconfigured_send_is_noop_witness :
  WebhookNotification.send Sample.cfg_no_urls Sample.world_broken REQUEST
    Sample.ticket_without_nodes = ([], Returned tt)
  /\ LarkWebhookNotification.send Sample.cfg_no_urls Sample.world_broken REQUEST
       Sample.ticket_without_nodes = ([], Returned tt)
  /\ WebhookEventNotification.send Sample.cfg_no_urls Sample.world_broken REQUEST
       Sample.ticket_without_nodes = ([], Returned tt).
Proof.
  destruct (unconfigured_send_is_noop Sample.cfg_no_urls Sample.world_broken REQUEST
              Sample.ticket_without_nodes) as [Hw [Hl He]].
  split; [apply Hw | split; [apply Hl | apply He]]; reflexivity.
Defined.

(* ================================================================= *)
(** ** The node scan of the event webhook *)

Section NodeScan.

Import WebhookEventNotification.
Variable current : option string.

Lemma enumerate_step (nodes front rest : list Node) (node : Node)
  (vars : option string * option string) :
  nodes = (front ++ node :: rest)%list ->
  event_step current nodes (Returned vars) (List.length front, node) =
    Returned (if optstr_eqb current (node_name node)
              then (match rest with
                    | [] => Some ""
                    | following :: _ => node_name following
                    end, node_node_type node)
              else vars).
Proof.
  intros ->. unfold event_step; simpl.
  destruct (optstr_eqb current (node_name node)); [| reflexivity].
  rewrite List.length_app.
  destruct rest as [| following rest']; simpl List.length.
  - destruct (Z.eqb_spec (Z.of_nat (List.length front))
                (Z.of_nat (List.length front + 1) - 1)) as [_ | Hne];
      [reflexivity | exfalso; lia].
  - destruct (Z.eqb_spec (Z.of_nat (List.length front))
                (Z.of_nat (List.length front + S (S (List.length rest'))) - 1))
      as [He | _]; [exfalso; lia |].
    simpl negb. cbv iota.
    rewrite nth_error_app2 by lia.
    replace (List.length front + 1 - List.length front) with 1 by lia.
    reflexivity.
Qed.

(** The loop never indexes out of range, and computes [scan_nodes]. *)
Lemma fold_event_step (nodes : list Node) :
  forall (rest front : list Node) (vars : option string * option string),
    nodes = (front ++ rest)%list ->
    fold_left (event_step current nodes) (enumerate_from (List.length front) rest)
      (Returned vars) = Returned (scan_nodes current rest vars).
Proof.
  induction rest as [| node rest IH]; intros front vars Hn;
    cbn [enumerate_from fold_left]; [reflexivity |].
  rewrite (enumerate_step front rest node vars Hn).
  replace (S (List.length front)) with (List.length (front ++ [node])%list)
    by (rewrite List.length_app; simpl; lia).
  apply IH. rewrite <- List.app_assoc. exact Hn.
Qed.

Lemma event_scan_refines (nodes : list Node) :
  event_scan current nodes = Returned (scan_nodes current nodes (Some "", Some "")).
Proof. exact (@fold_event_step nodes nodes [] (Some "", Some "") eq_refl). Qed.

Lemma scan_nodes_no_match (l : list Node) (vars : option string * option string) :
  Forall (fun m => node_name m <> current) l -> scan_nodes current l vars = vars.
Proof.
  revert vars; induction l as [| m l IH]; intros vars H; simpl; [reflexivity |].
  inversion H as [| ? ? Hm Hl]; subst.
  destruct (optstr_eqb current (node_name m)) eqn:E.
  - exfalso. apply Hm. destruct current as [c |], (node_name m) as [x |];
      simpl in E; try discriminate; [apply String.eqb_eq in E; now subst | reflexivity].
  - now apply IH.
Qed.

Lemma optstr_eqb_refl (o : option string) : optstr_eqb o o = true.
Proof. destruct o; simpl; [apply String.eqb_refl | reflexivity]. Qed.

(** What the scan leaves after the last node named [current]. *)
Lemma scan_nodes_last_match (pre post : list Node) (node : Node)
  (vars : option string * option string) :
  node_name node = current ->
  Forall (fun m => node_name m <> current) post ->
  scan_nodes current (pre ++ node :: post) vars =
    (match post with
     | [] => Some ""
     | following :: _ => node_name following
     end, node_node_type node).
Proof.
  intros Hn Hpost. revert vars.
  induction pre as [| p pre IH]; intros vars; simpl.
  - rewrite Hn, optstr_eqb_refl. now apply scan_nodes_no_match.
  - apply IH.
Qed.

End NodeScan.

(** C5: when [annotation.nodes] is a list in which [node] is the (last)
    node named [annotation.current_node], the event [render] returns a
    message whose [next_node] is the name of the node right after [node], or
    the empty string when [node] is the last one, and whose [notify_type] is
    [node]'s [node_type]. *)
Theorem event_render_next_node (phase : TicketPhase) (ticket : Ticket)
  (pre post : list Node) (node : Node) :
  ann_nodes (annotation ticket) = Some (pre ++ node :: post)%list ->
  node_name node = ann_current_node (annotation ticket) ->
  Forall (fun m => node_name m <> ann_current_node (annotation ticket)) post ->
  exists message,
    WebhookEventNotification.render phase ticket = Returned message /\
    nm_next_node message =
      match post with
      | [] => Some ""
      | following :: _ => node_name following
      end /\
    nm_notify_type message = node_node_type node.
Proof.
  intros Hnodes Hname Hpost. unfold WebhookEventNotification.render.
  rewrite Hnodes, event_scan_refines.
  rewrite (@scan_nodes_last_match _ pre post node _ Hname Hpost).
  simpl. eexists. split; [reflexivity |]. split; reflexivity.
Qed.

Lemma event_render_next_node_witness :
  (exists message,
     WebhookEventNotification.render APPROVAL
       (Sample.with_annotation (Sample.ann "B") Sample.ticket) = Returned message /\
     nm_next_node message = Some "C" /\ nm_notify_type message = Some "cc") /\
  (exists message,
     WebhookEventNotification.render APPROVAL
       (Sample.with_annotation (Sample.ann "C") Sample.ticket) = Returned message /\
     nm_next_node message = Some "" /\ nm_notify_type message = Some "approval").
Proof.
  split.
  - apply (@event_render_next_node APPROVAL
             (Sample.with_annotation (Sample.ann "B") Sample.ticket)
             [ {| node_name := Some "A"; node_node_type := Some "approval" |} ]
             [ {| node_name := Some "C"; node_node_type := Some "approval" |} ]
             {| node_name := Some "B"; node_node_type := Some "cc" |}).
    + reflexivity.
    + reflexivity.
    + repeat constructor; simpl; discriminate.
  - apply (@event_render_next_node APPROVAL
             (Sample.with_annotation (Sample.ann "C") Sample.ticket)
             [ {| node_name := Some "A"; node_node_type := Some "approval" |};
               {| node_name := Some "B"; node_node_type := Some "cc" |} ]
             []
             {| node_name := Some "C"; node_node_type := Some "approval" |}).
    + reflexivity.
    + reflexivity.
    + constructor.
Defined.

(* ================================================================= *)
(** ** The Lark card *)

Section LarkCard.

Import LarkWebhookNotification.

Lemma concat_cons (x : string) (xs : list string) :
  String.concat "" (x :: xs) = x ++ String.concat "" xs.
Proof. destruct xs; simpl; [now rewrite append_nil_r | reflexivity]. Qed.

(** The loop over [params.items()] appends one [param_line] each. *)
Lemma fold_param_lines (ps : list (string * string)) :
  forall content,
    fold_left (fun content nv =>
                 content ++ "  " ++ fst nv ++ ": " ++ snd nv ++ PyStr.nl) ps content
    = content ++ String.concat "" (map param_line ps).
Proof.
  induction ps as [| p ps IH]; intros content.
  - simpl. now rewrite append_nil_r.
  - cbn [fold_left map]. rewrite IH, concat_cons, append_assoc. reflexivity.
Qed.

(** The content built before the branch on the phase. *)
Lemma header_refines (ticket : Ticket) :
  fold_left (fun content nv =>
               content ++ "  " ++ fst nv ++ ": " ++ snd nv ++ PyStr.nl)
    (params ticket)
    (("[Ticket url](" ++ web_url ticket ++ ")" ++ PyStr.nl) ++ "Parameters:" ++ PyStr.nl)
    ++ "Request time: " ++ created_at ticket ++ PyStr.nl
  = common_header ticket.
Proof.
  rewrite fold_param_lines. unfold common_header.
  repeat rewrite append_assoc. reflexivity.
Qed.

Lemma optstr_eqb_eq (a b : option string) : optstr_eqb a b = true <-> a = b.
Proof.
  destruct a as [x |], b as [y |]; simpl; split; intros H;
    try discriminate; try reflexivity.
  - apply String.eqb_eq in H; now subst.
  - injection H as ->. apply String.eqb_refl.
Qed.

Lemma render_request (ticket : Ticket) :
  render REQUEST ticket =
    ("[helpdesk]" ++ submitter ticket ++ "  requested to " ++ title ticket,
     common_header ticket ++ "Reason: " ++ PyStr.fmt (reason ticket) ++ PyStr.nl
       ++ (if is_auto_approved ticket then "auto approved" ++ PyStr.nl else "")).
Proof.
  unfold render. change (phase_eqb REQUEST REQUEST) with true. cbv beta zeta iota.
  rewrite header_refines. f_equal.
  destruct (is_auto_approved ticket);
    repeat rewrite append_assoc; rewrite ?append_nil_r; reflexivity.
Qed.

Lemma render_rejected (ticket : Ticket) :
  tri_truthy (is_approved ticket) = false ->
  render APPROVAL ticket =
    ("[helpdesk approved]" ++ submitter ticket ++ "'s request to " ++ title ticket
       ++ " was rejected " ++ "by " ++ PyStr.fmt (confirmed_by ticket),
     common_header ticket
       ++ (if optstr_eqb (reason ticket) (ann_reason (annotation ticket)) then ""
           else "Reject reason: " ++ PyStr.fmt (reason ticket))).
Proof.
  intros Hrej. unfold render.
  change (phase_eqb APPROVAL REQUEST) with false.
  change (phase_eqb APPROVAL APPROVAL) with true. cbv beta zeta iota.
  rewrite Hrej, header_refines. f_equal.
  destruct (optstr_eqb (reason ticket) (ann_reason (annotation ticket))); simpl negb; cbv iota.
  - now rewrite append_nil_r.
  - reflexivity.
Qed.

(** [send] posts the card, and nothing before it. *)
Lemma send_posts_card (cfg : Config) (w : World) (phase : TicketPhase) (ticket : Ticket) :
  PyStr.truthy (LARK_WEBHOOK_URL cfg) = true ->
  exists rest,
    trace_of (send cfg w phase ticket) =
      EvPost (PyStr.fmt (LARK_WEBHOOK_URL cfg))
        (JsonLark "interactive" (card phase ticket)) None :: rest.
Proof.
  intros Hurl. unfold send, Notification.post. rewrite Hurl; simpl.
  destruct (http w) as [e | status_code body]; simpl.
  - eexists; reflexivity.
  - destruct (Notification.check_response (status_code, body)) as [t r].
    eexists; reflexivity.
Qed.

End LarkCard.

(** C6: in the REQUEST phase the card that the Lark [send] posts has, when
    the ticket is not auto-approved, exactly two action buttons, Approve
    with URL [web_url/approve] and Reject with URL [web_url/reject]; when the
    ticket is auto-approved it has no action button, its only element is the
    markdown content, and that content has the line [auto approved]. *)
Theorem lark_request_buttons (ticket : Ticket) :
  (is_auto_approved ticket = false ->
   action_buttons (LarkWebhookNotification.card REQUEST ticket) =
     [ {| btn_tag := "button"; btn_text_tag := "plain_text";
          btn_text_content := "Approve"; btn_type := "primary";
          btn_url := web_url ticket ++ "/approve" |};
       {| btn_tag := "button"; btn_text_tag := "plain_text";
          btn_text_content := "Reject"; btn_type := "danger";
          btn_url := web_url ticket ++ "/reject" |} ]) /\
  (is_auto_approved ticket = true ->
   action_buttons (LarkWebhookNotification.card REQUEST ticket) = [] /\
   exists content,
     card_elements (LarkWebhookNotification.card REQUEST ticket)
       = [MarkdownElement content] /\
     has_line "auto approved" content) /\
  (forall (cfg : Config) (w : World),
     PyStr.truthy (LARK_WEBHOOK_URL cfg) = true ->
     exists rest,
       trace_of (LarkWebhookNotification.send cfg w REQUEST ticket) =
         EvPost (PyStr.fmt (LARK_WEBHOOK_URL cfg))
           (JsonLark "interactive" (LarkWebhookNotification.card REQUEST ticket)) None
         :: rest).
Proof.
  split; [| split].
  - intros Hauto. unfold LarkWebhookNotification.card, action_buttons.
    change (phase_eqb REQUEST REQUEST) with true. rewrite Hauto. reflexivity.
  - intros Hauto. unfold LarkWebhookNotification.card, action_buttons.
    change (phase_eqb REQUEST REQUEST) with true. rewrite Hauto.
    split; [reflexivity |].
    cbv beta zeta. simpl andb. cbv iota. cbn [card_elements].
    eexists; split; [reflexivity |].
    rewrite render_request, Hauto. cbn [snd].
    exists (common_header ticket ++ "Reason: " ++ PyStr.fmt (reason ticket) ++ PyStr.nl), "".
    split.
    + repeat rewrite append_assoc. now rewrite append_nil_r.
    + right. exists (common_header ticket ++ "Reason: " ++ PyStr.fmt (reason ticket)).
      repeat rewrite append_assoc. reflexivity.
  - intros cfg w Hurl. now apply send_posts_card.
Qed.

Lemma lark_request_buttons_witness :
  List.length (action_buttons (LarkWebhookNotification.card REQUEST Sample.ticket)) = 2
  /\ map btn_url (action_buttons (LarkWebhookNotification.card REQUEST Sample.ticket))
     = ["https://hd/ticket/1/approve"; "https://hd/ticket/1/reject"]
  /\ action_buttons
       (LarkWebhookNotification.card REQUEST (Sample.auto_approved Sample.ticket)) = []
  /\ (exists rest,
        trace_of (LarkWebhookNotification.send Sample.cfg
                    (Sample.world Sample.full_text Sample.ok_response) REQUEST Sample.ticket) =
          EvPost "https://hooks.example.com/lark"
            (JsonLark "interactive" (LarkWebhookNotification.card REQUEST Sample.ticket)) None
          :: rest).
Proof.
  destruct (lark_request_buttons Sample.ticket) as [Hmanual [_ Hsend]].
  destruct (lark_request_buttons (Sample.auto_approved Sample.ticket)) as [_ [Hauto _]].
  rewrite (Hmanual eq_refl).
  split; [reflexivity |]. split; [reflexivity |]. split.
  - apply (Hauto eq_refl).
  - apply (Hsend Sample.cfg (Sample.world Sample.full_text Sample.ok_response) eq_refl).
Defined.

(** C7: in the APPROVAL phase with [is_approved] false, the content of the
    Lark card is the common header followed by the [Reject reason] line when
    [ticket.reason] differs from the annotation's reason, and the common
    header alone when the two are equal. *)
Theorem lark_reject_reason_line (ticket : Ticket) :
  is_approved ticket = Some false ->
  (reason ticket <> ann_reason (annotation ticket) ->
   snd (LarkWebhookNotification.render APPROVAL ticket) =
     common_header ticket ++ "Reject reason: " ++ PyStr.fmt (reason ticket)) /\
  (reason ticket = ann_reason (annotation ticket) ->
   snd (LarkWebhookNotification.render APPROVAL ticket) = common_header ticket).
Proof.
  intros Hrej.
  assert (Hf : tri_truthy (is_approved ticket) = false) by (rewrite Hrej; reflexivity).
  rewrite (render_rejected ticket Hf). cbn [snd].
  destruct (optstr_eqb (reason ticket) (ann_reason (annotation ticket))) eqn:E.
  - apply optstr_eqb_eq in E. split; [intros Hne; contradiction |].
    intros _. now rewrite append_nil_r.
  - split; [reflexivity |].
    intros Heq. apply optstr_eqb_eq in Heq. rewrite Heq in E. discriminate E.
Qed.

Lemma lark_reject_reason_line_witness :
  snd (LarkWebhookNotification.render APPROVAL (Sample.rejected "not this week" Sample.ticket))
    = common_header Sample.ticket ++ "Reject reason: not this week"
  /\ snd (LarkWebhookNotification.render APPROVAL (Sample.rejected "need access" Sample.ticket))
    = common_header Sample.ticket.
Proof.
  split.
  - apply (lark_reject_reason_line (Sample.rejected "not this week" Sample.ticket) eq_refl).
    simpl; discriminate.
  - apply (lark_reject_reason_line (Sample.rejected "need access" Sample.ticket) eq_refl).
    reflexivity.
Defined.

(* ================================================================= *)
(** ** Mail recipients *)

Section Recipients.

Import Notification MailNotification.

Lemma in_keep_truthy (l : list (option string)) (s : string) :
  In s (keep_truthy l) <-> In (Some s) l /\ s <> "".
Proof.
  induction l as [| [x |] l IH]; simpl.
  - tauto.
  - destruct x as [| c x]; simpl.
    + rewrite IH. split.
      * intros [H Hs]; auto.
      * intros [[H | H] Hs]; [injection H as <-; contradiction | auto].
    + rewrite IH. split.
      * intros [<- | [H Hs]]; [split; [auto | discriminate] | auto].
      * intros [[H | H] Hs]; [injection H as <-; auto | auto].
  - rewrite IH. split.
    + intros [H Hs]; auto.
    + intros [[H | H] Hs]; [discriminate H | auto].
Qed.

Lemma keep_truthy_nonempty (l : list (option string)) :
  Forall (fun s => s <> "") (keep_truthy l).
Proof. apply Forall_forall. intros s H. now apply in_keep_truthy in H. Qed.

(** A string without the separator is its own single segment. *)
Lemma split_without_sep (sep : ascii) (s : string) :
  PyStr.mem sep s = false -> PyStr.split sep s = [s].
Proof.
  induction s as [| c s IH]; simpl; [reflexivity |].
  intros H. apply Bool.orb_false_iff in H as [Hc Hs].
  rewrite Hc, (IH Hs). reflexivity.
Qed.

Lemma split_app_sep (sep : ascii) (s rest : string) :
  PyStr.mem sep s = false ->
  PyStr.split sep (s ++ String sep rest) = s :: PyStr.split sep rest.
Proof.
  induction s as [| c s IH]; simpl.
  - intros _. now rewrite Ascii.eqb_refl.
  - intros H. apply Bool.orb_false_iff in H as [Hc Hs].
    rewrite Hc, (IH Hs). reflexivity.
Qed.

(** Splitting a comma-joined list of comma-free strings gives the list
    back. *)
Lemma split_join (l : list string) :
  l <> [] ->
  Forall (fun s => PyStr.mem PyStr.comma s = false) l ->
  PyStr.split PyStr.comma (PyStr.join "," l) = l.
Proof.
  induction l as [| x [| y r] IH]; intros Hne Hall.
  - contradiction.
  - inversion Hall; subst. now apply split_without_sep.
  - inversion Hall as [| ? ? Hx Hr]; subst.
    change (PyStr.join "," (x :: y :: r))
      with (x ++ String PyStr.comma (PyStr.join "," (y :: r))).
    rewrite split_app_sep by exact Hx.
    rewrite IH; [reflexivity | discriminate | exact Hr].
Qed.

Lemma split_not_nil (sep : ascii) (s : string) : PyStr.split sep s <> [].
Proof.
  induction s as [| c s IH]; simpl; [discriminate |].
  destruct (Ascii.eqb c sep); [discriminate |].
  destruct (PyStr.split sep s); discriminate.
Qed.

(** Splitting distributes over a separator between two strings. *)
Lemma split_app_at_sep (sep : ascii) (s rest : string) :
  PyStr.split sep (s ++ String sep rest)
  = (PyStr.split sep s ++ PyStr.split sep rest)%list.
Proof.
  induction s as [| c s IH]; simpl.
  - now rewrite Ascii.eqb_refl.
  - rewrite IH. destruct (Ascii.eqb c sep); [reflexivity |].
    pose proof (split_not_nil sep s) as Hne.
    destruct (PyStr.split sep s) as [| h t]; [contradiction | reflexivity].
Qed.

(** The segments of a comma-joined list are the segments of its items. *)
Lemma split_join_items (l : list string) :
  l <> [] ->
  PyStr.split PyStr.comma (PyStr.join "," l) = flat_map (PyStr.split PyStr.comma) l.
Proof.
  induction l as [| x [| y r] IH]; intros Hne.
  - contradiction.
  - simpl. now rewrite List.app_nil_r.
  - change (PyStr.join "," (x :: y :: r))
      with (x ++ String PyStr.comma (PyStr.join "," (y :: r))).
    rewrite split_app_at_sep, IH by discriminate. reflexivity.
Qed.

Lemma get_mail_addrs_unfold (cfg : Config) (w : World) (phase : TicketPhase)
  (ticket : Ticket) (policy : option string -> string) (actions : list string) :
  get_flow_policy w ticket = Returned policy ->
  get_rule_actions w ticket "approver" = Returned actions ->
  get_mail_addrs cfg w phase ticket =
    Returned (PyStr.join ","
                (keep_truthy
                   (recipients cfg phase ticket
                      (policy (ann_current_node (annotation ticket))) actions))).
Proof.
  intros Hp Ha. unfold get_mail_addrs, get_approvers, recipients.
  rewrite Hp; simpl obind. rewrite Ha; simpl obind.
  destruct (String.eqb (value phase) "approval" || String.eqb (value phase) "mark").
  - repeat rewrite <- List.app_assoc. reflexivity.
  - rewrite List.app_nil_r. repeat rewrite <- List.app_assoc. reflexivity.
Qed.

End Recipients.

(** C8, as stated, fails: the admin setting is joined as it is, so with
    [ADMIN_EMAIL_ADDRS = "root@example.com,,ops@example.com"] the returned
    string has an empty segment. *)
Lemma get_mail_addrs_can_have_empty_segment :
  MailNotification.get_mail_addrs Scenario.cfg_admin_list
    (Sample.world Sample.full_text Sample.ok_response) REQUEST Sample.ticket
  = Returned
      "root@example.com,,ops@example.com,dave@example.com,alice@example.com,bob@example.com,frank@example.com"
  /\ In ""
       (PyStr.split PyStr.comma
          "root@example.com,,ops@example.com,dave@example.com,alice@example.com,bob@example.com,frank@example.com").
Proof. split; [reflexivity |]. vm_compute. right; left. reflexivity. Qed.

(** C8, amended: when the policy engine answers, [get_mail_addrs] returns
    the comma-join of a list of addresses none of which is empty.  A string
    is one of them exactly when it is non-empty and is the admin address,
    the email of a cc, one of the comma-separated approvers of the policy,
    the email of an "approver" rule action, or, only in the approval and
    mark phases, the submitter's email; identifiers mapped to no address or
    to the empty one contribute nothing and raise nothing.  Each address is
    joined as it is: the returned string is free of empty comma-separated
    segments exactly when at least one address is kept and no kept address
    has an empty segment of its own. *)
Theorem get_mail_addrs_segments (cfg : Config) (w : World) (phase : TicketPhase)
  (ticket : Ticket) (policy : option string -> string) (actions : list string) :
  get_flow_policy w ticket = Returned policy ->
  get_rule_actions w ticket "approver" = Returned actions ->
  exists segments,
    MailNotification.get_mail_addrs cfg w phase ticket
      = Returned (PyStr.join "," segments) /\
    Forall (fun s => s <> "") segments /\
    (forall s,
       In s segments <->
       s <> "" /\
       (ADMIN_EMAIL_ADDRS cfg = Some s
        \/ (exists cc, In cc (ccs ticket) /\ get_user_email cfg cc = Some s)
        \/ In s (PyStr.split PyStr.comma (policy (ann_current_node (annotation ticket))))
        \/ (exists approver, In approver actions /\ get_user_email cfg approver = Some s)
        \/ ((value phase = "approval" \/ value phase = "mark")
            /\ get_user_email cfg (submitter ticket) = Some s))) /\
    (~ In "" (PyStr.split PyStr.comma (PyStr.join "," segments)) <->
     segments <> [] /\
     forall s, In s segments -> ~ In "" (PyStr.split PyStr.comma s)).
Proof.
  intros Hp Ha.
  exists (keep_truthy (recipients cfg phase ticket
                         (policy (ann_current_node (annotation ticket))) actions)).
  split; [now apply get_mail_addrs_unfold |].
  split; [apply keep_truthy_nonempty |].
  split.
  - intros s. rewrite in_keep_truthy. unfold recipients.
    repeat rewrite in_app_iff. repeat rewrite in_map_iff.
    assert (Hphase :
      In (Some s)
         (if String.eqb (value phase) "approval" || String.eqb (value phase) "mark"
          then [get_user_email cfg (submitter ticket)] else []) <->
      (value phase = "approval" \/ value phase = "mark")
      /\ get_user_email cfg (submitter ticket) = Some s).
    { destruct (String.eqb_spec (value phase) "approval") as [E1 | N1];
        destruct (String.eqb_spec (value phase) "mark") as [E2 | N2]; simpl;
        intuition congruence. }
    rewrite Hphase. simpl In. split.
    + intros [H Hs]. split; [exact Hs |].
      destruct H as [[H | []] | [[cc [H1 H2]] | [[x [H1 H2]] | [[a [H1 H2]] | H]]]].
      * left; exact H.
      * right; left; exists cc; auto.
      * right; right; left. injection H1 as ->. exact H2.
      * right; right; right; left; exists a; auto.
      * right; right; right; right; exact H.
    + intros [Hs [H | [[cc [H1 H2]] | [H | [[a [H1 H2]] | H]]]]]; (split; [| exact Hs]).
      * left; left; exact H.
      * right; left; exists cc; auto.
      * right; right; left; exists s; auto.
      * right; right; right; left; exists a; auto.
      * right; right; right; right; exact H.
  - destruct (keep_truthy (recipients cfg phase ticket
                 (policy (ann_current_node (annotation ticket))) actions))
      as [| x l] eqn:E.
    + split.
      * intros H. exfalso. apply H. simpl. left. reflexivity.
      * intros [H _]. contradiction.
    + rewrite split_join_items by discriminate. split.
      * intros H. split; [discriminate |].
        intros s Hs Hin. apply H. apply in_flat_map. exists s. split; assumption.
      * intros [_ H] Hin. apply in_flat_map in Hin as [s [Hs Hin]].
        exact (H s Hs Hin).
Qed.

Lemma get_mail_addrs_segments_witness :
  exists segments,
    MailNotification.get_mail_addrs Sample.cfg
      (Sample.world Sample.full_text Sample.ok_response) APPROVAL Sample.ticket
      = Returned (PyStr.join "," segments) /\
    Forall (fun s => s <> "") segments /\
    In "carol@example.com" segments /\
    ~ In "" (PyStr.split PyStr.comma (PyStr.join "," segments)).
Proof.
  destruct (@get_mail_addrs_segments Sample.cfg
              (Sample.world Sample.full_text Sample.ok_response) APPROVAL Sample.ticket
              (fun _ => "alice@example.com,,bob@example.com") ["frank"; "ghost"]
              eq_refl eq_refl)
    as [segments [Hret [Hne [Hin Hsplit]]]].
  exists segments. split; [exact Hret |]. split; [exact Hne |].
  assert (Hcarol : In "carol@example.com" segments).
  { apply Hin. split; [discriminate |].
    right; right; right; right. split; [left |]; reflexivity. }
  split; [exact Hcarol |].
  apply Hsplit. split.
  - intros E. rewrite E in Hcarol. destruct Hcarol.
  - intros s Hs.
    assert (Hcases :
      s = "admin@example.com" \/ s = "dave@example.com" \/ s = "alice@example.com"
      \/ s = "bob@example.com" \/ s = "frank@example.com" \/ s = "carol@example.com").
    { apply Hin in Hs as [Hs0 Hs]. vm_compute in Hs.
      destruct Hs as [H | [[cc [[H | [H | []]] E]] | [[H | [H | [H | []]]]
                    | [[a [[H | [H | []]] E]] | [_ H]]]]]; subst;
        try discriminate; try (injection E as <-); try (injection H as <-);
        try contradiction; auto 10. }
    destruct Hcases as [-> | [-> | [-> | [-> | [-> | ->]]]]];
      vm_compute; intros [H | []]; discriminate H.
Defined.

(* ================================================================= *)
(** ** The generic webhook *)

Section GenericWebhook.

Import Notification WebhookNotification.

Lemma get_color_cases (phase : TicketPhase) (ticket : Ticket) :
  (value phase = "request" -> is_approved ticket = Some true ->
   get_color phase ticket = "#17a2b8") /\
  (value phase = "request" -> is_approved ticket <> Some true ->
   get_color phase ticket = "#ffc107") /\
  (value phase <> "request" -> get_color phase ticket = color ticket).
Proof.
  unfold get_color. repeat split.
  - intros -> ->. reflexivity.
  - intros -> H. simpl. destruct (is_approved ticket) as [[|] |]; simpl;
      [contradiction H | |]; reflexivity.
  - intros H. apply String.eqb_neq in H. now rewrite H.
Qed.

Lemma raise_for_status_cases (status_code : Z) (body : option json) :
  raise_for_status (status_code, body) =
    ([], if ((400 <=? status_code) && (status_code <? 600))%Z
         then Raised (HTTPError status_code) else Returned tt).
Proof.
  unfold raise_for_status; simpl.
  destruct ((400 <=? status_code) && (status_code <? 600))%Z; reflexivity.
Qed.

End GenericWebhook.

(** C9, as stated, fails in its last part: a response outside 2xx need not
    be a failure.  On a 304 response the generic webhook [send] returns
    normally. *)
Lemma webhook_send_accepts_304 :
  let w := Sample.world Sample.full_text (Response 304 None) in
  PyStr.truthy (WEBHOOK_URL Sample.cfg) = true
  /\ ~ (200 <= 304 < 300)%Z
  /\ http w = Response 304 None
  /\ outcome_of (WebhookNotification.send Sample.cfg w REQUEST Sample.ticket) = Returned tt.
Proof. repeat split; try reflexivity. intros [_ H]. discriminate H. Qed.

(** C9, amended: with the webhook URL configured and the template rendered
    to [(title, content)], the generic webhook [send] performs exactly one
    action, a POST to the URL with timeout 3 whose JSON body has the fields
    from = "helpdesk", title, link = the ticket's [web_url], color, text =
    title, link and content on successive lines, and markdown = content.
    The color is #17a2b8 in the request phase when [is_approved] is true,
    #ffc107 in the request phase otherwise, and the ticket's own color in
    every other phase.  [send] raises what the POST raises, raises an
    [HTTPError] on a status from 400 to 599, and returns normally on every
    other status. *)
Theorem webhook_send_post (cfg : Config) (w : World) (phase : TicketPhase)
  (ticket : Ticket) (title content : string) :
  PyStr.truthy (WEBHOOK_URL cfg) = true ->
  Notification.render w WebhookNotification.method phase ticket
    = Returned (title, content) ->
  trace_of (WebhookNotification.send cfg w phase ticket) =
    [EvPost (PyStr.fmt (WEBHOOK_URL cfg))
       (JsonWebhook
          {| wh_from := "helpdesk";
             wh_title := title;
             wh_link := web_url ticket;
             wh_color := WebhookNotification.get_color phase ticket;
             wh_text := title ++ PyStr.nl ++ web_url ticket ++ PyStr.nl ++ content;
             wh_markdown := content |})
       (Some 3%Z)] /\
  ((value phase = "request" -> is_approved ticket = Some true ->
    WebhookNotification.get_color phase ticket = "#17a2b8") /\
   (value phase = "request" -> is_approved ticket <> Some true ->
    WebhookNotification.get_color phase ticket = "#ffc107") /\
   (value phase <> "request" ->
    WebhookNotification.get_color phase ticket = color ticket)) /\
  outcome_of (WebhookNotification.send cfg w phase ticket) =
    match http w with
    | PostRaises e => Raised e
    | Response status_code _ =>
        if ((400 <=? status_code) && (status_code <? 600))%Z
        then Raised (HTTPError status_code) else Returned tt
    end.
Proof.
  intros Hurl Hrender.
  split; [| split; [apply get_color_cases |]];
    unfold WebhookNotification.send, Notification.post;
    rewrite Hurl, Hrender; simpl negb; cbv iota;
    destruct (http w) as [e | status_code body]; try reflexivity.
  - unfold lift, emit, ret, bind. cbn [fst snd].
    rewrite raise_for_status_cases. reflexivity.
  - unfold lift, emit, ret, bind. cbn [fst snd].
    rewrite raise_for_status_cases. reflexivity.
Qed.

Lemma webhook_send_post_witness :
  trace_of (WebhookNotification.send Sample.cfg
              (Sample.world Sample.full_text (Response 503 None)) REQUEST Sample.ticket) =
    [EvPost "https://hooks.example.com/generic"
       (JsonWebhook
          {| wh_from := "helpdesk";
             wh_title := "Ticket requested";
             wh_link := "https://hd/ticket/1";
             wh_color := "#ffc107";
             wh_text := "Ticket requested" ++ PyStr.nl ++ "https://hd/ticket/1"
                          ++ PyStr.nl ++ "Please review";
             wh_markdown := "Please review" |})
       (Some 3%Z)]
  /\ outcome_of (WebhookNotification.send Sample.cfg
                   (Sample.world Sample.full_text (Response 503 None)) REQUEST Sample.ticket)
     = Raised (HTTPError 503).
Proof.
  destruct (@webhook_send_post Sample.cfg
              (Sample.world Sample.full_text (Response 503 None)) REQUEST Sample.ticket
              "Ticket requested" "Please review" eq_refl eq_refl) as [Htrace [_ Hout]].
  split; [exact Htrace | exact Hout].
Defined.

(* ================================================================= *)
(** ** The event payload *)

(** C10: whenever the event [render] builds a message (it does as soon as
    [annotation.nodes] is a list), its [is_approved] field is a boolean, the
    truth value of the ticket's tri-state [is_approved]; an unset ([None])
    [is_approved] is emitted as [False]. *)
Theorem event_is_approved_is_bool (phase : TicketPhase) (ticket : Ticket)
  (nodes : list Node) :
  ann_nodes (annotation ticket) = Some nodes ->
  exists message,
    WebhookEventNotification.render phase ticket = Returned message /\
    nm_is_approved message = PBool (tri_truthy (is_approved ticket)) /\
    (is_approved ticket = None -> nm_is_approved message = PBool false).
Proof.
  intros Hnodes. unfold WebhookEventNotification.render.
  rewrite Hnodes, event_scan_refines. simpl obind.
  eexists. split; [reflexivity |]. cbn [nm_is_approved].
  destruct (is_approved ticket) as [[|] |]; split; try reflexivity; discriminate.
Qed.

Lemma event_is_approved_is_bool_witness :
  exists message,
    WebhookEventNotification.render REQUEST Sample.ticket = Returned message /\
    nm_is_approved message = PBool false.
Proof.
  destruct (@event_is_approved_is_bool REQUEST Sample.ticket Sample.nodes_abc eq_refl)
    as [message [Hr [_ Hnone]]].
  exists message. split; [exact Hr | apply Hnone; reflexivity].
Defined.

(* ================================================================= *)
(** ** More on the template renderer *)

Section StripFacts.

Unset Implicit Arguments.

Ltac bytes :=
  unfold lead, PyStr.is_space1, PyStr.is_space2, PyStr.is_space3 in *;
  repeat match goal with
         | |- context [nat_of_ascii ?a] =>
             let x := fresh "x" in set (x := nat_of_ascii a) in *; clearbody x
         | H : context [nat_of_ascii ?a] |- _ =>
             let x := fresh "x" in set (x := nat_of_ascii a) in *; clearbody x
         end;
  cbv zeta in *;
  repeat match goal with
         | |- _ /\ _ => split
         | |- _ = false => apply Bool.not_true_iff_false; intro
         end;
  repeat rewrite ?Bool.andb_true_iff, ?Bool.orb_true_iff,
    ?Nat.eqb_eq, ?Nat.leb_le in *;
  lia.

Lemma space2_first a b : PyStr.is_space2 a b = true -> PyStr.is_space1 a = false.
Proof. intros H. bytes. Qed.

Lemma space3_first a b c :
  PyStr.is_space3 a b c = true ->
  PyStr.is_space1 a = false /\ PyStr.is_space2 a b = false.
Proof. intros H. bytes. Qed.

Lemma space2_last a b : PyStr.is_space2 a b = true -> PyStr.is_space1 b = false.
Proof. intros H. bytes. Qed.

Lemma space3_last a b c :
  PyStr.is_space3 a b c = true ->
  PyStr.is_space1 c = false /\ PyStr.is_space2 b c = false.
Proof. intros H. bytes. Qed.

Lemma lead_not_second a b : lead b = true -> PyStr.is_space2 a b = false.
Proof. intros H. bytes. Qed.

Lemma lead_not_middle a b c : lead b = true -> PyStr.is_space3 a b c = false.
Proof. intros H. bytes. Qed.

Lemma lead_not_third a b c : lead c = true -> PyStr.is_space3 a b c = false.
Proof. intros H. bytes. Qed.

Lemma Spaces_lead b r : Spaces (String b r) -> lead b = true.
Proof. intros H. inversion H; subst; bytes. Qed.


Lemma string_strong_ind (P : string -> Prop) :
  (forall s, (forall t, String.length t < String.length s -> P t) -> P s) ->
  forall s, P s.
Proof.
  intros Hstep s.
  assert (H : forall n t, String.length t < n -> P t).
  { induction n as [| n IH]; intros t Ht; [lia |].
    apply Hstep. intros u Hu. apply IH. lia. }
  apply (H (S (String.length s))). lia.
Qed.

Lemma all_space_Spaces (s : string) : all_space s = true -> Spaces s.
Proof.
  induction s as [s IH] using string_strong_ind.
  destruct s as [| a [| b [| c r]]]; simpl; intros H.
  - constructor.
  - destruct (PyStr.is_space1 a) eqn:E1; [| discriminate].
    apply Spaces_1; [exact E1 | constructor].
  - destruct (PyStr.is_space1 a) eqn:E1.
    + apply Spaces_1; [exact E1 |]. apply IH; [simpl; lia | exact H].
    + destruct (PyStr.is_space2 a b) eqn:E2; [| discriminate].
      apply Spaces_2; [exact E2 | constructor].
  - destruct (PyStr.is_space1 a) eqn:E1.
    + apply Spaces_1; [exact E1 |]. apply IH; [simpl; lia | exact H].
    + destruct (PyStr.is_space2 a b) eqn:E2.
      * apply Spaces_2; [exact E2 |]. apply IH; [simpl; lia | exact H].
      * apply Bool.andb_true_iff in H as [E3 H].
        apply Spaces_3; [exact E3 |]. apply IH; [simpl; lia | exact H].
Qed.

Lemma lstrip_Spaces_app (p s : string) :
  Spaces p -> PyStr.lstrip (p ++ s) = PyStr.lstrip s.
Proof.
  induction 1 as [| a r Ha _ IH | a b r Hab _ IH | a b c r Habc _ IH]; simpl.
  - reflexivity.
  - now rewrite Ha.
  - now rewrite (space2_first _ _ Hab), Hab.
  - destruct (space3_first _ _ _ Habc) as [E1 E2]. now rewrite E1, E2, Habc.
Qed.

Lemma lstrip_Spaces (p : string) : Spaces p -> PyStr.lstrip p = "".
Proof.
  intros H. rewrite <- (append_nil_r p). now rewrite lstrip_Spaces_app.
Qed.

Lemma rev_app (a b : string) : PyStr.rev (a ++ b) = PyStr.rev b ++ PyStr.rev a.
Proof.
  induction a as [| x a IH]; simpl.
  - now rewrite append_nil_r.
  - now rewrite IH, append_assoc.
Qed.


Lemma lstrip_rev_Spaces_app (p : string) :
  Spaces p -> forall t, PyStr.lstrip_rev (PyStr.rev p ++ t) = PyStr.lstrip_rev t.
Proof.
  induction 1 as [| a r Ha _ IH | a b r Hab _ IH | a b c r Habc _ IH]; intros t; simpl.
  - reflexivity.
  - rewrite append_assoc, IH. simpl. now rewrite Ha.
  - rewrite !append_assoc, IH. simpl.
    now rewrite (space2_last _ _ Hab), Hab.
  - rewrite !append_assoc, IH. simpl.
    destruct (space3_last _ _ _ Habc) as [E1 E2]. now rewrite E1, E2, Habc.
Qed.

Lemma rstrip_app_Spaces (s p : string) :
  Spaces p -> PyStr.rstrip (s ++ p) = PyStr.rstrip s.
Proof.
  intros H. unfold PyStr.rstrip. now rewrite rev_app, lstrip_rev_Spaces_app.
Qed.

(** Whitespace appended to a text is removed with the text's own. *)
Lemma strip_app_Spaces (t p : string) :
  Spaces p -> PyStr.strip (t ++ p) = PyStr.strip t.
Proof.
  intros Hp. unfold PyStr.strip.
  induction t as [t IH] using string_strong_ind.
  destruct t as [| a [| b [| c r]]].
  - simpl. now rewrite (lstrip_Spaces _ Hp).
  - simpl. destruct (PyStr.is_space1 a) eqn:E1.
    + now rewrite (lstrip_Spaces _ Hp).
    + change (String a p) with (String a "" ++ p).
      rewrite <- (rstrip_app_Spaces (String a "") p Hp). f_equal.
      destruct p as [| b [| c p]]; simpl; [reflexivity | |].
      * now rewrite (lead_not_second a b (Spaces_lead _ _ Hp)).
      * rewrite (lead_not_second a b (Spaces_lead _ _ Hp)).
        now rewrite (lead_not_middle a b c (Spaces_lead _ _ Hp)).
  - simpl. destruct (PyStr.is_space1 a) eqn:E1.
    + apply (IH (String b "")). simpl; lia.
    + destruct (PyStr.is_space2 a b) eqn:E2.
      * now rewrite (lstrip_Spaces _ Hp).
      * change (String a (String b p)) with (String a (String b "") ++ p).
        rewrite <- (rstrip_app_Spaces (String a (String b "")) p Hp). f_equal.
        destruct p as [| c p]; simpl; [reflexivity |].
        now rewrite (lead_not_third a b c (Spaces_lead _ _ Hp)).
  - simpl. destruct (PyStr.is_space1 a) eqn:E1.
    + apply (IH (String b (String c r))). simpl; lia.
    + destruct (PyStr.is_space2 a b) eqn:E2.
      * apply (IH (String c r)). simpl; lia.
      * destruct (PyStr.is_space3 a b c) eqn:E3.
        -- apply (IH r). simpl; lia.
        -- change (String a (String b (String c (r ++ p))))
             with (String a (String b (String c r)) ++ p).
           now apply rstrip_app_Spaces.
Qed.

(** Whitespace around a text does not survive [strip]. *)
Lemma strip_padding (pad1 text pad2 : string) :
  all_space pad1 = true -> all_space pad2 = true ->
  PyStr.strip (pad1 ++ text ++ pad2) = PyStr.strip text.
Proof.
  intros H1 H2. apply all_space_Spaces in H1, H2.
  unfold PyStr.strip at 1. rewrite lstrip_Spaces_app by exact H1.
  exact (strip_app_Spaces text pad2 H2).
Qed.










Set Implicit Arguments.

Lemma join_texts_only_type_error (pieces : list Element) (e : exn) :
  join_texts pieces = Raised e -> e = TypeError.
Proof.
  induction pieces as [| p ps IH]; simpl; [discriminate |].
  destruct (text_of p); [| intros H; now injection H].
  destruct (join_texts ps); simpl; [discriminate | exact IH].
Qed.

Lemma join_texts_textless (pieces : list Element) :
  (exists p, In p pieces /\ text_of p = None) -> join_texts pieces = Raised TypeError.
Proof.
  induction pieces as [| q qs IH]; intros [p [Hin Hp]]; [destruct Hin |].
  simpl. destruct Hin as [-> | Hin].
  - now rewrite Hp.
  - destruct (text_of q); [| reflexivity].
    rewrite IH by (exists p; auto). reflexivity.
Qed.

End StripFacts.

(** X1: whitespace around the template output is invisible to [render]:
    two worlds with the same parser, one whose template engine yields
    [text] and one that yields [text] with whitespace before and after it
    (any code points that [str.strip()] removes), render the same result. *)
Theorem render_ignores_surrounding_whitespace (w1 w2 : World) (method : string)
  (phase : TicketPhase) (ticket : Ticket) (pad1 text pad2 : string) :
  all_space pad1 = true -> all_space pad2 = true ->
  (forall s, fromstring w1 s = fromstring w2 s) ->
  template_render w1 (method ++ "/" ++ value phase ++ ".j2") ticket
    = Returned (pad1 ++ text ++ pad2) ->
  template_render w2 (method ++ "/" ++ value phase ++ ".j2") ticket = Returned text ->
  Notification.render w1 method phase ticket = Notification.render w2 method phase ticket.
Proof.
  intros H1 H2 Hparse Ht1 Ht2.
  rewrite (render_unfold _ _ _ _ Ht1), (render_unfold _ _ _ _ Ht2).
  rewrite strip_padding by assumption. rewrite Hparse. reflexivity.
Qed.

Lemma render_ignores_surrounding_whitespace_witness :
  Notification.render (Scenario.world_padded Sample.full_text Sample.ok_response)
    "mail" APPROVAL Sample.ticket
  = Notification.render (Scenario.world_exact Sample.full_text Sample.ok_response)
      "mail" APPROVAL Sample.ticket.
Proof.
  apply (@render_ignores_surrounding_whitespace
           (Scenario.world_padded Sample.full_text Sample.ok_response)
           (Scenario.world_exact Sample.full_text Sample.ok_response)
           "mail" APPROVAL Sample.ticket
           (PyStr.nl ++ Scenario.nbsp ++ " ") Sample.full_text
           (Scenario.ideographic_space ++ PyStr.nl)).
  - reflexivity.
  - reflexivity.
  - intros s; reflexivity.
  - reflexivity.
  - reflexivity.
Defined.

(** X2: an element without text is an error, unlike a missing element: when
    the parsed template has a title child or a content child whose text is
    [None] (an empty element), [render] raises [TypeError]. *)
Theorem render_textless_element_raises (w : World) (method : string)
  (phase : TicketPhase) (ticket : Ticket) (message : string) (tree : Element) :
  template_render w (method ++ "/" ++ value phase ++ ".j2") ticket = Returned message ->
  fromstring w (PyStr.strip message) = Some tree ->
  (exists p, In p (findall "title" tree ++ findall "content" tree)%list
             /\ text_of p = None) ->
  Notification.render w method phase ticket = Raised TypeError.
Proof.
  intros Hm Ht [p [Hin Hp]]. rewrite (render_unfold _ _ _ _ Hm), Ht.
  apply in_app_iff in Hin as [Hin | Hin].
  - rewrite join_texts_textless by (exists p; auto). reflexivity.
  - destruct (join_texts (findall "title" tree)) as [t | e] eqn:Et; simpl.
    + rewrite join_texts_textless by (exists p; auto). reflexivity.
    + now rewrite (join_texts_only_type_error _ Et).
Qed.

Lemma render_textless_element_raises_witness :
  Notification.render
    (Scenario.world_exact Scenario.textless_title_text Sample.ok_response)
    "webhook" REQUEST Sample.ticket = Raised TypeError.
Proof.
  apply (@render_textless_element_raises
           (Scenario.world_exact Scenario.textless_title_text Sample.ok_response)
           "webhook" REQUEST Sample.ticket
           Scenario.textless_title_text Scenario.textless_title_tree).
  - reflexivity.
  - reflexivity.
  - exists (Elem "title" None [] None). split; [left; reflexivity | reflexivity].
Defined.

(* ================================================================= *)
(** ** More on [MailNotification.send] *)

Ltac mail_paths cfg w phase ticket :=
  unfold MailNotification.send, Notification.smtp_open, Notification.smtp_do_login,
    Notification.smtp_do_send_message, Notification.smtp_do_quit, Notification.attempt,
    Notification.set_content, Notification.set_header;
  destruct (MailNotification.get_mail_addrs cfg w phase ticket) as [?addrs | ?e];
  [ destruct (Notification.render w MailNotification.method phase ticket)
      as [[?title ?content] | ?e];
    [ cbn [bind lift fst snd];
      destruct (smtp_connect w) as [?e |];
      [ | destruct (PyStr.truthy (SMTP_CREDENTIALS cfg));
          [ destruct (PyStr.split PyStr.colon (PyStr.fmt (SMTP_CREDENTIALS cfg)))
              as [| ?user [| ?password [| ?extra ?more]]] | ];
          destruct (smtp_login w) as [?e |];
          repeat match goal with
                 | |- context [email_set_content w ?v] =>
                     destruct (email_set_content w v) as [?e |]
                 | |- context [email_header w ?name ?v] =>
                     destruct (email_header w name v) as [?e |]
                 end;
          destruct (smtp_send_message w) as [?e |];
          destruct (smtp_quit w) as [?e |] ]
    | ]
  | ].

(** X3: [send] touches SMTP only after the recipients are resolved, the
    message is rendered and the connection is made.  A failure of the policy
    lookup, of the rule-action lookup, of the rendering or of the connection
    propagates to the caller with no SMTP action performed. *)
Theorem mail_send_fails_before_session (cfg : Config) (w : World)
  (phase : TicketPhase) (ticket : Ticket) (e : exn) :
  (get_flow_policy w ticket = Raised e ->
   MailNotification.send cfg w phase ticket = ([], Raised e)) /\
  (forall policy,
     get_flow_policy w ticket = Returned policy ->
     get_rule_actions w ticket "approver" = Raised e ->
     MailNotification.send cfg w phase ticket = ([], Raised e)) /\
  (forall addrs,
     MailNotification.get_mail_addrs cfg w phase ticket = Returned addrs ->
     Notification.render w MailNotification.method phase ticket = Raised e ->
     MailNotification.send cfg w phase ticket = ([], Raised e)) /\
  (forall addrs tc,
     MailNotification.get_mail_addrs cfg w phase ticket = Returned addrs ->
     Notification.render w MailNotification.method phase ticket = Returned tc ->
     smtp_connect w = Some e ->
     MailNotification.send cfg w phase ticket = ([], Raised e)).
Proof.
  split; [| split; [| split]].
  - intros Hp. unfold MailNotification.send, MailNotification.get_mail_addrs,
      Notification.get_approvers. rewrite Hp. reflexivity.
  - intros policy Hp Ha. unfold MailNotification.send, MailNotification.get_mail_addrs,
      Notification.get_approvers. rewrite Hp; simpl obind. rewrite Ha. reflexivity.
  - intros addrs Ha Hr. unfold MailNotification.send. rewrite Ha, Hr. reflexivity.
  - intros addrs tc Ha Hr Hc. unfold MailNotification.send, Notification.smtp_open.
    rewrite Ha, Hr, Hc. reflexivity.
Qed.

Lemma mail_send_fails_before_session_witness :
  MailNotification.send Sample.cfg
    (Scenario.make_world (Returned Sample.full_text) (Raised PolicyLookupError)
       (Returned []) None None None None Sample.ok_response)
    REQUEST Sample.ticket = ([], Raised PolicyLookupError)
  /\ MailNotification.send Sample.cfg
       (Scenario.make_world (Returned Sample.full_text) (Returned Scenario.approvers_of)
          (Raised PolicyLookupError) None None None None Sample.ok_response)
       REQUEST Sample.ticket = ([], Raised PolicyLookupError)
  /\ MailNotification.send Sample.cfg
       (Scenario.make_world (Raised TemplateNotFound) (Returned Scenario.approvers_of)
          (Returned []) None None None None Sample.ok_response)
       REQUEST Sample.ticket = ([], Raised TemplateNotFound)
  /\ MailNotification.send Sample.cfg
       (Scenario.make_world (Returned Sample.full_text) (Returned Scenario.approvers_of)
          (Returned []) (Some SMTPConnectError) None None None Sample.ok_response)
       REQUEST Sample.ticket = ([], Raised SMTPConnectError).
Proof.
  split; [| split; [| split]].
  - apply (proj1 (@mail_send_fails_before_session Sample.cfg _ REQUEST Sample.ticket
                    PolicyLookupError)). reflexivity.
  - apply (proj1 (proj2 (@mail_send_fails_before_session Sample.cfg _ REQUEST
                           Sample.ticket PolicyLookupError)) Scenario.approvers_of);
      reflexivity.
  - eapply (proj1 (proj2 (proj2 (@mail_send_fails_before_session Sample.cfg _ REQUEST
                                   Sample.ticket TemplateNotFound)))); reflexivity.
  - eapply (proj2 (proj2 (proj2 (@mail_send_fails_before_session Sample.cfg _ REQUEST
                                   Sample.ticket SMTPConnectError)))); reflexivity.
Defined.

(** X4: once the session is open, the login step has passed (no
    credentials, or well-formed credentials the server accepts) and the
    email package has built the message (it accepts the body and the
    Subject, From and To headers), [send]
    closes the session exactly once and as its last action, whether
    [send_message] succeeds or raises; when [quit] itself succeeds the
    outcome of [send] is that of [send_message]. *)
Theorem mail_send_closes_session (cfg : Config) (w : World) (phase : TicketPhase)
  (ticket : Ticket) (addrs : string) (tc : string * string) :
  MailNotification.get_mail_addrs cfg w phase ticket = Returned addrs ->
  Notification.render w MailNotification.method phase ticket = Returned tc ->
  smtp_connect w = None ->
  (PyStr.truthy (SMTP_CREDENTIALS cfg) = true ->
   smtp_login w = None /\
   exists user password,
     PyStr.split PyStr.colon (PyStr.fmt (SMTP_CREDENTIALS cfg)) = [user; password]) ->
  message_accepted cfg w tc addrs ->
  (exists before,
     trace_of (MailNotification.send cfg w phase ticket) = (before ++ [EvSmtpQuit])%list /\
     count is_smtp_quit before = 0 /\ count is_smtp_open before = 1) /\
  (smtp_quit w = None ->
   outcome_of (MailNotification.send cfg w phase ticket) =
     match smtp_send_message w with Some e => Raised e | None => Returned tt end).
Proof.
  intros Ha Hr Hc Hl [Hbody [Hsub [Hfrom Hto]]].
  unfold MailNotification.send, Notification.smtp_open, Notification.smtp_do_login,
    Notification.smtp_do_send_message, Notification.smtp_do_quit, Notification.attempt,
    Notification.set_content, Notification.set_header.
  rewrite Ha, Hr, Hc. cbn [bind lift fst snd]. rewrite Hbody, Hsub, Hfrom, Hto.
  destruct (PyStr.truthy (SMTP_CREDENTIALS cfg)).
  - destruct (Hl eq_refl) as [Hlog [user [password Hs]]]. rewrite Hs, Hlog.
    destruct (smtp_send_message w), (smtp_quit w); simpl; split;
      try (intros; reflexivity); try discriminate;
      eexists [_; _; _]; repeat split; reflexivity.
  - destruct (smtp_send_message w), (smtp_quit w); simpl; split;
      try (intros; reflexivity); try discriminate;
      eexists [_; _]; repeat split; reflexivity.
Qed.

Lemma mail_send_closes_session_witness :
  (exists before,
     trace_of (MailNotification.send Sample.cfg Sample.world_bad_delivery
                 REQUEST Sample.ticket) = (before ++ [EvSmtpQuit])%list /\
     count is_smtp_quit before = 0 /\ count is_smtp_open before = 1)
  /\ outcome_of (MailNotification.send Sample.cfg Sample.world_bad_delivery
                   REQUEST Sample.ticket) = Raised SMTPException.
Proof.
  destruct (@mail_send_closes_session Sample.cfg Sample.world_bad_delivery REQUEST
              Sample.ticket
              "admin@example.com,dave@example.com,alice@example.com,bob@example.com,frank@example.com"
              ("Ticket requested", "Please review") eq_refl eq_refl eq_refl)
    as [Htrace Hout].
  - intros _. split; [reflexivity |]. exists "helpdesk", "secret". reflexivity.
  - repeat split.
  - split; [exact Htrace | exact (Hout eq_refl)].
Defined.



(** X6: configured credentials that do not split at [:] into exactly a user
    and a password make [send] raise [ValueError] right after the session is
    opened: no login is attempted and no message is sent. *)
Theorem mail_send_malformed_credentials (cfg : Config) (w : World)
  (phase : TicketPhase) (ticket : Ticket) (addrs : string) (tc : string * string) :
  MailNotification.get_mail_addrs cfg w phase ticket = Returned addrs ->
  Notification.render w MailNotification.method phase ticket = Returned tc ->
  smtp_connect w = None ->
  PyStr.truthy (SMTP_CREDENTIALS cfg) = true ->
  List.length (PyStr.split PyStr.colon (PyStr.fmt (SMTP_CREDENTIALS cfg))) <> 2 ->
  MailNotification.send cfg w phase ticket =
    ([EvSmtpOpen (SMTP_SSL cfg) (SMTP_SERVER cfg) (SMTP_SERVER_PORT cfg)],
     Raised ValueError).
Proof.
  intros Ha Hr Hc Hcred Hlen. unfold MailNotification.send, Notification.smtp_open.
  rewrite Ha, Hr, Hc, Hcred.
  destruct (PyStr.split PyStr.colon (PyStr.fmt (SMTP_CREDENTIALS cfg)))
    as [| user [| password [| extra more]]]; try reflexivity.
  exfalso. apply Hlen. reflexivity.
Qed.

Lemma mail_send_malformed_credentials_witness :
  MailNotification.send Scenario.cfg_colon_in_password
    (Sample.world Sample.full_text Sample.ok_response) REQUEST Sample.ticket =
    ([EvSmtpOpen false "smtp.example.com" 25], Raised ValueError).
Proof.
  eapply (@mail_send_malformed_credentials Scenario.cfg_colon_in_password
            (Sample.world Sample.full_text Sample.ok_response) REQUEST Sample.ticket).
  - reflexivity.
  - reflexivity.
  - reflexivity.
  - reflexivity.
  - vm_compute. discriminate.
Defined.



(* ================================================================= *)
(** ** What each channel does and does not do *)

Section Channels.

Import Notification.
Variable cfg : Config.
Variable w : World.
Variables (phase : TicketPhase) (ticket : Ticket).

(** The shared tail reports at most once and does nothing else. *)
Lemma check_response_trace (r : Z * option json) :
  trace_of (check_response r) = [] \/ check_response r = ([EvReport], Returned tt).
Proof.
  destruct r as [status_code body]. unfold check_response; simpl.
  destruct (status_code =? 200)%Z; simpl; [| right; reflexivity].
  destruct (status_code_is_zero body) as [[|] | e]; simpl; auto.
Qed.

Lemma webhook_send_paths :
  WebhookNotification.send cfg w phase ticket = ([], Returned tt)
  \/ (exists e, WebhookNotification.send cfg w phase ticket = ([], Raised e))
  \/ (exists url body timeout o,
        WebhookNotification.send cfg w phase ticket = ([EvPost url body timeout], o)).
Proof.
  unfold WebhookNotification.send, post, raise_for_status.
  destruct (PyStr.truthy (WEBHOOK_URL cfg)); simpl; [| left; reflexivity].
  destruct (render w WebhookNotification.method phase ticket) as [tc | e]; simpl;
    [| right; left; eauto].
  right; right.
  destruct (http w) as [e | status_code body]; simpl; [do 4 eexists; reflexivity |].
  destruct ((400 <=? status_code)%Z && (status_code <? 600)%Z); simpl;
    do 4 eexists; reflexivity.
Qed.

Lemma lark_send_paths :
  (PyStr.truthy (LARK_WEBHOOK_URL cfg) = false /\
   LarkWebhookNotification.send cfg w phase ticket = ([], Returned tt))
  \/ (PyStr.truthy (LARK_WEBHOOK_URL cfg) = true /\
      exists url body timeout,
        (exists o, LarkWebhookNotification.send cfg w phase ticket
                   = ([EvPost url body timeout], o))
        \/ LarkWebhookNotification.send cfg w phase ticket
           = ([EvPost url body timeout; EvReport], Returned tt)).
Proof.
  unfold LarkWebhookNotification.send, post.
  destruct (PyStr.truthy (LARK_WEBHOOK_URL cfg)); simpl; [| left; auto].
  right. split; [reflexivity |].
  destruct (http w) as [e | status_code body]; simpl.
  - do 3 eexists. left. eexists. reflexivity.
  - destruct (check_response_trace (status_code, body)) as [H | H].
    + destruct (check_response (status_code, body)) as [t o]. simpl in H. subst t.
      do 3 eexists. left. eexists. reflexivity.
    + rewrite H. do 3 eexists. right. reflexivity.
Qed.

Lemma event_send_paths :
  WebhookEventNotification.send cfg w phase ticket = ([], Returned tt)
  \/ (exists e, WebhookEventNotification.send cfg w phase ticket = ([], Raised e))
  \/ (exists m url body timeout,
        (exists o, WebhookEventNotification.send cfg w phase ticket
                   = ([EvPrint m; EvPost url body timeout], o))
        \/ WebhookEventNotification.send cfg w phase ticket
           = ([EvPrint m; EvPost url body timeout; EvReport], Returned tt)).
Proof.
  unfold WebhookEventNotification.send, post.
  destruct (PyStr.truthy (WEBHOOK_EVENT_URL cfg)); simpl; [| left; reflexivity].
  destruct (WebhookEventNotification.render phase ticket) as [m | e]; simpl;
    [| right; left; eauto].
  right; right.
  destruct (http w) as [e | status_code body]; simpl.
  - do 4 eexists. left. eexists. reflexivity.
  - destruct (check_response_trace (status_code, body)) as [H | H].
    + destruct (check_response (status_code, body)) as [t o]. simpl in H. subst t.
      do 4 eexists. left. eexists. reflexivity.
    + rewrite H. do 4 eexists. right. reflexivity.
Qed.

End Channels.

(** X8: the channels do not touch each other's transport.  The mail [send]
    never posts and never reports; the three webhook [send]s never perform an
    SMTP action. *)
Theorem channels_are_isolated (cfg : Config) (w : World) (phase : TicketPhase)
  (ticket : Ticket) :
  count is_post (trace_of (MailNotification.send cfg w phase ticket)) = 0 /\
  count is_report (trace_of (MailNotification.send cfg w phase ticket)) = 0 /\
  count is_smtp (trace_of (WebhookNotification.send cfg w phase ticket)) = 0 /\
  count is_smtp (trace_of (LarkWebhookNotification.send cfg w phase ticket)) = 0 /\
  count is_smtp (trace_of (WebhookEventNotification.send cfg w phase ticket)) = 0.
Proof.
  split; [| split; [| split; [| split]]].
  - mail_paths cfg w phase ticket; reflexivity.
  - mail_paths cfg w phase ticket; reflexivity.
  - destruct (webhook_send_paths cfg w phase ticket)
      as [H | [[e H] | [url [body [timeout [o H]]]]]]; rewrite H; reflexivity.
  - destruct (lark_send_paths cfg w phase ticket)
      as [[_ H] | [_ [url [body [timeout [[o H] | H]]]]]]; rewrite H; reflexivity.
  - destruct (event_send_paths cfg w phase ticket)
      as [H | [[e H] | [m [url [body [timeout [[o H] | H]]]]]]]; rewrite H; reflexivity.
Qed.

(** A trace without a report cannot be cut at a report. *)
Lemma no_report_no_cut (t before after : list event) :
  count is_report t = 0 -> t <> (before ++ EvReport :: after)%list.
Proof.
  intros Hc ->. unfold count in Hc. rewrite filter_app in Hc. simpl in Hc.
  rewrite List.length_app in Hc. simpl in Hc. lia.
Qed.

(** X9: every webhook [send] posts at most once.  The generic webhook never
    calls the reporting sink; the Lark and the event webhook call it at most
    once and only after having posted: wherever a report stands in their
    trace, exactly one post precedes it and nothing follows it.  With its
    URL configured the Lark [send] always posts exactly once, since its
    [render] cannot fail. *)
Theorem webhook_sends_post_at_most_once (cfg : Config) (w : World)
  (phase : TicketPhase) (ticket : Ticket) :
  (count is_post (trace_of (WebhookNotification.send cfg w phase ticket)) <= 1 /\
   count is_report (trace_of (WebhookNotification.send cfg w phase ticket)) = 0) /\
  (count is_report (trace_of (LarkWebhookNotification.send cfg w phase ticket))
     <= count is_post (trace_of (LarkWebhookNotification.send cfg w phase ticket)) /\
   count is_post (trace_of (LarkWebhookNotification.send cfg w phase ticket)) <= 1) /\
  (count is_report (trace_of (WebhookEventNotification.send cfg w phase ticket))
     <= count is_post (trace_of (WebhookEventNotification.send cfg w phase ticket)) /\
   count is_post (trace_of (WebhookEventNotification.send cfg w phase ticket)) <= 1) /\
  (PyStr.truthy (LARK_WEBHOOK_URL cfg) = true ->
   count is_post (trace_of (LarkWebhookNotification.send cfg w phase ticket)) = 1) /\
  (forall before after,
     trace_of (LarkWebhookNotification.send cfg w phase ticket)
       = (before ++ EvReport :: after)%list ->
     count is_post before = 1 /\ after = []) /\
  (forall before after,
     trace_of (WebhookEventNotification.send cfg w phase ticket)
       = (before ++ EvReport :: after)%list ->
     count is_post before = 1 /\ after = []).
Proof.
  split; [| split; [| split; [| split; [| split]]]].
  - destruct (webhook_send_paths cfg w phase ticket)
      as [H | [[e H] | [url [body [timeout [o H]]]]]]; rewrite H; unfold count, trace_of; simpl; lia.
  - destruct (lark_send_paths cfg w phase ticket)
      as [[_ H] | [_ [url [body [timeout [[o H] | H]]]]]]; rewrite H; unfold count, trace_of; simpl; lia.
  - destruct (event_send_paths cfg w phase ticket)
      as [H | [[e H] | [m [url [body [timeout [[o H] | H]]]]]]]; rewrite H; unfold count, trace_of; simpl; lia.
  - intros Hurl. destruct (lark_send_paths cfg w phase ticket)
      as [[Hf _] | [_ [url [body [timeout [[o H] | H]]]]]];
      [rewrite Hurl in Hf; discriminate Hf | rewrite H; reflexivity ..].
  - intros before after Ht.
    destruct (lark_send_paths cfg w phase ticket)
      as [[_ H] | [_ [url [body [timeout [[o H] | H]]]]]]; rewrite H in Ht.
    + exfalso. revert Ht. now apply no_report_no_cut.
    + exfalso. revert Ht. now apply no_report_no_cut.
    + destruct before as [| ev1 [| ev2 before]]; unfold trace_of in Ht; simpl in Ht.
      * discriminate Ht.
      * injection Ht as <- <-. split; reflexivity.
      * injection Ht as _ _ Ht. destruct before; discriminate Ht.
  - intros before after Ht.
    destruct (event_send_paths cfg w phase ticket)
      as [H | [[e H] | [m [url [body [timeout [[o H] | H]]]]]]]; rewrite H in Ht.
    + exfalso. revert Ht. now apply no_report_no_cut.
    + exfalso. revert Ht. now apply no_report_no_cut.
    + exfalso. revert Ht. now apply no_report_no_cut.
    + destruct before as [| ev1 [| ev2 [| ev3 before]]]; unfold trace_of in Ht;
        simpl in Ht; try discriminate Ht.
      * injection Ht as <- <- <-. split; reflexivity.
      * injection Ht as _ _ _ Ht. destruct before; discriminate Ht.
Qed.

Lemma webhook_sends_post_at_most_once_witness :
  count is_post
    (trace_of (LarkWebhookNotification.send Sample.cfg Sample.world_broken
                 MARK Sample.ticket_without_nodes)) = 1.
Proof.
  apply (proj1 (proj2 (proj2 (proj2 (webhook_sends_post_at_most_once Sample.cfg
                                Sample.world_broken MARK Sample.ticket_without_nodes))))).
  reflexivity.
Defined.

(** X10: a generic webhook [send] whose rendering fails posts nothing: the
    rendering error reaches the caller and the trace is empty. *)
Theorem webhook_send_render_failure (cfg : Config) (w : World) (phase : TicketPhase)
  (ticket : Ticket) (e : exn) :
  PyStr.truthy (WEBHOOK_URL cfg) = true ->
  Notification.render w WebhookNotification.method phase ticket = Raised e ->
  WebhookNotification.send cfg w phase ticket = ([], Raised e).
Proof.
  intros Hurl Hr. unfold WebhookNotification.send. rewrite Hurl, Hr. reflexivity.
Qed.

Lemma webhook_send_render_failure_witness :
  WebhookNotification.send Sample.cfg
    (Scenario.world_exact "<message><title>unclosed" Sample.ok_response)
    REQUEST Sample.ticket = ([], Raised ParseError).
Proof.
  apply (@webhook_send_render_failure Sample.cfg
           (Scenario.world_exact "<message><title>unclosed" Sample.ok_response)
           REQUEST Sample.ticket ParseError); reflexivity.
Defined.

(* ================================================================= *)
(** ** More on the Lark card *)

Section LarkBranches.

Import LarkWebhookNotification.

Lemma phase_eqb_value (p q : TicketPhase) : phase_eqb p q = true <-> value p = value q.
Proof. unfold phase_eqb. apply String.eqb_eq. Qed.

Lemma render_approved (ticket : Ticket) :
  tri_truthy (is_approved ticket) = true ->
  render APPROVAL ticket =
    ("[helpdesk approved]" ++ submitter ticket ++ "'s request to " ++ title ticket
       ++ " was approved " ++ "by " ++ PyStr.fmt (confirmed_by ticket),
     common_header ticket ++ "Reason: " ++ PyStr.fmt (reason ticket) ++ PyStr.nl).
Proof.
  intros Hok. unfold render.
  change (phase_eqb APPROVAL REQUEST) with false.
  change (phase_eqb APPROVAL APPROVAL) with true. cbv beta zeta iota.
  rewrite Hok, header_refines. reflexivity.
Qed.

(** Outside the request and approval phases the content is the header. *)
Lemma render_other (phase : TicketPhase) (ticket : Ticket) :
  phase_eqb phase REQUEST = false -> phase_eqb phase APPROVAL = false ->
  render phase ticket =
    (if phase_eqb phase MARK
     then "[helpdesk approved]" ++ submitter ticket ++ "'s request to " ++ title ticket
            ++ " was marked " ++ status ticket
     else "[helpdesk]" ++ submitter ticket ++ "  " ++ value phase ++ "ed " ++ title ticket,
     common_header ticket).
Proof.
  intros Hr Ha. unfold render. rewrite Hr, Ha. cbv beta zeta iota.
  rewrite header_refines. destruct (phase_eqb phase MARK); reflexivity.
Qed.

End LarkBranches.

(** X11: in every phase and for every ticket, the content of the Lark card
    begins with the common header: the ticket URL, one line per parameter
    and the request time. *)
Theorem lark_content_starts_with_header (phase : TicketPhase) (ticket : Ticket) :
  exists rest,
    snd (LarkWebhookNotification.render phase ticket) = common_header ticket ++ rest.
Proof.
  destruct (phase_eqb phase REQUEST) eqn:Hreq.
  - apply phase_eqb_value in Hreq. destruct phase as [v]. simpl in Hreq. subst v.
    change {| value := "request" |} with REQUEST. rewrite render_request.
    eexists. reflexivity.
  - destruct (phase_eqb phase APPROVAL) eqn:Happ.
    + apply phase_eqb_value in Happ. destruct phase as [v]. simpl in Happ. subst v.
      change {| value := "approval" |} with APPROVAL.
      destruct (tri_truthy (is_approved ticket)) eqn:Hok.
      * rewrite (render_approved ticket Hok). eexists. reflexivity.
      * rewrite (render_rejected ticket Hok). eexists. reflexivity.
    + rewrite (render_other phase ticket Hreq Happ). exists "".
      cbn [snd]. now rewrite append_nil_r.
Qed.

(** X12: the card has action buttons exactly when the phase is the request
    phase and the ticket is not auto-approved; in every other case its only
    element is the markdown content. *)
Theorem lark_buttons_only_on_manual_request (phase : TicketPhase) (ticket : Ticket) :
  (action_buttons (LarkWebhookNotification.card phase ticket) <> [] <->
   value phase = "request" /\ is_auto_approved ticket = false) /\
  (action_buttons (LarkWebhookNotification.card phase ticket) = [] ->
   card_elements (LarkWebhookNotification.card phase ticket) =
     [MarkdownElement (snd (LarkWebhookNotification.render phase ticket))]).
Proof.
  unfold LarkWebhookNotification.card, action_buttons. cbv zeta.
  destruct (phase_eqb phase REQUEST) eqn:Hreq; destruct (is_auto_approved ticket) eqn:Hauto;
    simpl; (split; [split |]).
  all: try (intros H; exfalso; apply H; reflexivity).
  all: try (intros [_ H]; discriminate H).
  all: try (intros _; reflexivity).
  all: try discriminate.
  all: try (intros _; split; [now apply (phase_eqb_value phase REQUEST) | reflexivity]).
  all: intros [H _]; apply (phase_eqb_value phase REQUEST) in H; rewrite H in Hreq;
    discriminate Hreq.
Qed.

Lemma lark_buttons_only_on_manual_request_witness :
  action_buttons (LarkWebhookNotification.card APPROVAL Sample.ticket) = []
  /\ card_elements (LarkWebhookNotification.card APPROVAL Sample.ticket) =
       [MarkdownElement (snd (LarkWebhookNotification.render APPROVAL Sample.ticket))].
Proof.
  destruct (lark_buttons_only_on_manual_request APPROVAL Sample.ticket) as [_ H].
  split; [reflexivity | apply H; reflexivity].
Defined.

(** X13: an approved ticket in the approval phase is announced as approved
    by its confirmer, and the content is the common header followed by the
    reason line. *)
Theorem lark_approved_card (ticket : Ticket) :
  is_approved ticket = Some true ->
  LarkWebhookNotification.render APPROVAL ticket =
    ("[helpdesk approved]" ++ submitter ticket ++ "'s request to " ++ title ticket
       ++ " was approved by " ++ PyStr.fmt (confirmed_by ticket),
     common_header ticket ++ "Reason: " ++ PyStr.fmt (reason ticket) ++ PyStr.nl).
Proof.
  intros H. rewrite render_approved by (rewrite H; reflexivity). reflexivity.
Qed.

Lemma lark_approved_card_witness :
  LarkWebhookNotification.render APPROVAL (Scenario.approved Sample.ticket) =
    ("[helpdesk approved]carol's request to restart web was approved by erin",
     common_header Sample.ticket ++ "Reason: need access" ++ PyStr.nl).
Proof.
  rewrite (@lark_approved_card (Scenario.approved Sample.ticket) eq_refl). reflexivity.
Defined.

(** X14: in the approval phase a ticket whose [is_approved] is unset is
    rendered like a rejected one: the title says rejected, and the reject
    reason is shown when it differs from the annotation's reason. *)
Theorem lark_unset_approval_reads_rejected (ticket : Ticket) :
  is_approved ticket = None ->
  fst (LarkWebhookNotification.render APPROVAL ticket) =
    "[helpdesk approved]" ++ submitter ticket ++ "'s request to " ++ title ticket
      ++ " was rejected by " ++ PyStr.fmt (confirmed_by ticket) /\
  (reason ticket <> ann_reason (annotation ticket) ->
   snd (LarkWebhookNotification.render APPROVAL ticket) =
     common_header ticket ++ "Reject reason: " ++ PyStr.fmt (reason ticket)) /\
  (reason ticket = ann_reason (annotation ticket) ->
   snd (LarkWebhookNotification.render APPROVAL ticket) = common_header ticket).
Proof.
  intros H. rewrite render_rejected by (rewrite H; reflexivity). cbn [fst snd].
  split; [reflexivity |].
  destruct (optstr_eqb (reason ticket) (ann_reason (annotation ticket))) eqn:E.
  - apply optstr_eqb_eq in E. split; [intros Hne; contradiction |].
    intros _. now rewrite append_nil_r.
  - split; [reflexivity |].
    intros Heq. apply optstr_eqb_eq in Heq. rewrite Heq in E. discriminate E.
Qed.

Lemma lark_unset_approval_reads_rejected_witness :
  LarkWebhookNotification.render APPROVAL Sample.ticket =
    ("[helpdesk approved]carol's request to restart web was rejected by None",
     common_header Sample.ticket).
Proof.
  destruct (@lark_unset_approval_reads_rejected Sample.ticket eq_refl) as [Ht [_ Hc]].
  specialize (Hc eq_refl).
  destruct (LarkWebhookNotification.render APPROVAL Sample.ticket) as [t c].
  cbn [fst snd] in Ht, Hc. rewrite Ht, Hc. reflexivity.
Defined.

(** X15: in the mark phase the title says the request was marked with the
    ticket's status, in any phase other than request, approval and mark it
    is the generic "submitter, phase value + ed, title" form; in both cases
    the content is exactly the common header. *)
Theorem lark_mark_and_fallback (phase : TicketPhase) (ticket : Ticket) :
  (LarkWebhookNotification.render MARK ticket =
     ("[helpdesk approved]" ++ submitter ticket ++ "'s request to " ++ title ticket
        ++ " was marked " ++ status ticket,
      common_header ticket)) /\
  (value phase <> "request" -> value phase <> "approval" -> value phase <> "mark" ->
   LarkWebhookNotification.render phase ticket =
     ("[helpdesk]" ++ submitter ticket ++ "  " ++ value phase ++ "ed " ++ title ticket,
      common_header ticket)).
Proof.
  split.
  - rewrite (render_other MARK ticket eq_refl eq_refl). reflexivity.
  - intros Hr Ha Hm.
    assert (Er : phase_eqb phase REQUEST = false) by (apply String.eqb_neq; exact Hr).
    assert (Ea : phase_eqb phase APPROVAL = false) by (apply String.eqb_neq; exact Ha).
    assert (Em : phase_eqb phase MARK = false) by (apply String.eqb_neq; exact Hm).
    rewrite (render_other phase ticket Er Ea), Em. reflexivity.
Qed.

Lemma lark_mark_and_fallback_witness :
  LarkWebhookNotification.render Scenario.CLOSE Sample.ticket =
    ("[helpdesk]carol  closeed restart web", common_header Sample.ticket).
Proof.
  rewrite (proj2 (lark_mark_and_fallback Scenario.CLOSE Sample.ticket));
    [reflexivity | simpl; discriminate ..].
Defined.

(* ================================================================= *)
(** ** Responses to the Lark and event posts *)

(** X16: with the URL configured, a 200 response that is a JSON object whose
    [StatusCode] equals 0 makes the Lark [send], and the event [send] whenever
    its [render] returns, return normally without calling the reporting
    sink. *)
Theorem best_effort_send_accepts_zero_status (cfg : Config) (w : World)
  (phase : TicketPhase) (ticket : Ticket) (fields : list (string * json)) (v : json) :
  http w = Response 200 (Some (JObj fields)) ->
  lookup "StatusCode" fields = Some v -> py_eq_zero v = true ->
  (PyStr.truthy (LARK_WEBHOOK_URL cfg) = true ->
   outcome_of (LarkWebhookNotification.send cfg w phase ticket) = Returned tt /\
   count is_report (trace_of (LarkWebhookNotification.send cfg w phase ticket)) = 0) /\
  (PyStr.truthy (WEBHOOK_EVENT_URL cfg) = true ->
   forall message, WebhookEventNotification.render phase ticket = Returned message ->
   outcome_of (WebhookEventNotification.send cfg w phase ticket) = Returned tt /\
   count is_report (trace_of (WebhookEventNotification.send cfg w phase ticket)) = 0).
Proof.
  intros Hw Hv Hz. split.
  - intros Hurl. unfold LarkWebhookNotification.send, Notification.post.
    rewrite Hurl, Hw; simpl. rewrite (check_response_accepted _ Hv Hz).
    split; reflexivity.
  - intros Hurl message Hm. unfold WebhookEventNotification.send, Notification.post.
    rewrite Hurl, Hm, Hw; simpl. rewrite (check_response_accepted _ Hv Hz).
    split; reflexivity.
Qed.

Lemma best_effort_send_accepts_zero_status_witness :
  let w := Sample.world Sample.full_text Sample.ok_response in
  (outcome_of (LarkWebhookNotification.send Sample.cfg w MARK Sample.ticket) = Returned tt /\
   count is_report
     (trace_of (LarkWebhookNotification.send Sample.cfg w MARK Sample.ticket)) = 0) /\
  (outcome_of (WebhookEventNotification.send Sample.cfg w MARK Sample.ticket) = Returned tt /\
   count is_report
     (trace_of (WebhookEventNotification.send Sample.cfg w MARK Sample.ticket)) = 0).
Proof.
  intros w.
  destruct (@best_effort_send_accepts_zero_status Sample.cfg w MARK Sample.ticket
              [("StatusCode", JNum 0); ("StatusMessage", JStr "success")] (JNum 0)
              eq_refl eq_refl eq_refl) as [Hlark Hevent].
  split.
  - apply Hlark. reflexivity.
  - eapply Hevent; reflexivity.
Defined.

(** X17: a 200 response whose body is a JSON object without the key
    [StatusCode] raises [KeyError] out of the Lark and of the event [send],
    and a 200 response whose JSON body is not an object raises [TypeError];
    in both cases the reporting sink is not called. *)
Theorem best_effort_send_unexpected_json (cfg : Config) (w : World)
  (phase : TicketPhase) (ticket : Ticket) (body : json) (e : exn) :
  http w = Response 200 (Some body) ->
  (match body with
   | JObj fields => lookup "StatusCode" fields = None /\ e = KeyError
   | _ => e = TypeError
   end) ->
  (PyStr.truthy (LARK_WEBHOOK_URL cfg) = true ->
   outcome_of (LarkWebhookNotification.send cfg w phase ticket) = Raised e /\
   count is_report (trace_of (LarkWebhookNotification.send cfg w phase ticket)) = 0) /\
  (PyStr.truthy (WEBHOOK_EVENT_URL cfg) = true ->
   forall message, WebhookEventNotification.render phase ticket = Returned message ->
   outcome_of (WebhookEventNotification.send cfg w phase ticket) = Raised e /\
   count is_report (trace_of (WebhookEventNotification.send cfg w phase ticket)) = 0).
Proof.
  intros Hw Hbody.
  assert (Hcheck : Notification.check_response (200%Z, Some body) = ([], Raised e)).
  { unfold Notification.check_response; simpl.
    destruct body as [| b | n | s | items | fields]; try (subst e; reflexivity).
    destruct Hbody as [Hl ->]. rewrite Hl. reflexivity. }
  split.
  - intros Hurl. unfold LarkWebhookNotification.send, Notification.post.
    rewrite Hurl, Hw; simpl. rewrite Hcheck. split; reflexivity.
  - intros Hurl message Hm. unfold WebhookEventNotification.send, Notification.post.
    rewrite Hurl, Hm, Hw; simpl. rewrite Hcheck. split; reflexivity.
Qed.

Lemma best_effort_send_unexpected_json_witness :
  outcome_of (LarkWebhookNotification.send Sample.cfg
                (Sample.world Sample.full_text
                   (Response 200 (Some (JObj [("code", JNum 0)]))))
                REQUEST Sample.ticket) = Raised KeyError
  /\ outcome_of (WebhookEventNotification.send Sample.cfg
                   (Sample.world Sample.full_text (Response 200 (Some (JArr []))))
                   REQUEST Sample.ticket) = Raised TypeError.
Proof.
  split.
  - apply (proj1 (@best_effort_send_unexpected_json Sample.cfg
                    (Sample.world Sample.full_text
                       (Response 200 (Some (JObj [("code", JNum 0)]))))
                    REQUEST Sample.ticket (JObj [("code", JNum 0)]) KeyError
                    eq_refl (conj eq_refl eq_refl))).
    reflexivity.
  - eapply (proj2 (@best_effort_send_unexpected_json Sample.cfg
                     (Sample.world Sample.full_text (Response 200 (Some (JArr []))))
                     REQUEST Sample.ticket (JArr []) TypeError eq_refl eq_refl));
      reflexivity.
Defined.

(* ================================================================= *)
(** ** More on the event payload *)

(** X18: when [annotation.nodes] is a list none of whose nodes is named
    [annotation.current_node] (in particular when it is empty), the event
    message is built with the empty string both as [next_node] and as
    [notify_type]. *)
Theorem event_render_unknown_current_node (phase : TicketPhase) (ticket : Ticket)
  (nodes : list Node) :
  ann_nodes (annotation ticket) = Some nodes ->
  Forall (fun m => node_name m <> ann_current_node (annotation ticket)) nodes ->
  exists message,
    WebhookEventNotification.render phase ticket = Returned message /\
    nm_next_node message = Some "" /\ nm_notify_type message = Some "".
Proof.
  intros Hnodes Hnone. unfold WebhookEventNotification.render.
  rewrite Hnodes, event_scan_refines, scan_nodes_no_match by exact Hnone.
  simpl. eexists. split; [reflexivity |]. split; reflexivity.
Qed.

Lemma event_render_unknown_current_node_witness :
  exists message,
    WebhookEventNotification.render REQUEST
      (Sample.with_annotation (Sample.ann "Z") Sample.ticket) = Returned message /\
    nm_next_node message = Some "" /\ nm_notify_type message = Some "".
Proof.
  apply (@event_render_unknown_current_node REQUEST
           (Sample.with_annotation (Sample.ann "Z") Sample.ticket) Sample.nodes_abc).
  - reflexivity.
  - repeat constructor; simpl; discriminate.
Defined.

(** X19: when the annotation has no [nodes], the event [render] raises
    [TypeError]; the event [send] then raises it to the caller having
    printed, posted and reported nothing. *)
Theorem event_send_without_nodes (cfg : Config) (w : World) (phase : TicketPhase)
  (ticket : Ticket) :
  ann_nodes (annotation ticket) = None ->
  WebhookEventNotification.render phase ticket = Raised TypeError /\
  (PyStr.truthy (WEBHOOK_EVENT_URL cfg) = true ->
   WebhookEventNotification.send cfg w phase ticket = ([], Raised TypeError)).
Proof.
  intros Hnone.
  assert (Hr : WebhookEventNotification.render phase ticket = Raised TypeError)
    by (unfold WebhookEventNotification.render; now rewrite Hnone).
  split; [exact Hr |].
  intros Hurl. unfold WebhookEventNotification.send. rewrite Hurl, Hr. reflexivity.
Qed.

Lemma event_send_without_nodes_witness :
  WebhookEventNotification.send Sample.cfg
    (Sample.world Sample.full_text Sample.ok_response) REQUEST
    Sample.ticket_without_nodes = ([], Raised TypeError).
Proof.
  apply (proj2 (@event_send_without_nodes Sample.cfg
                  (Sample.world Sample.full_text Sample.ok_response) REQUEST
                  Sample.ticket_without_nodes eq_refl)).
  reflexivity.
Defined.

(** X20: the [reason] field of the event message is always a string: the
    ticket's reason, and the empty string when the ticket has none. *)
Theorem event_reason_is_string (phase : TicketPhase) (ticket : Ticket)
  (message : NotifyMessage) :
  WebhookEventNotification.render phase ticket = Returned message ->
  nm_reason message = PStr (match reason ticket with Some s => s | None => "" end).
Proof.
  unfold WebhookEventNotification.render.
  destruct (ann_nodes (annotation ticket)) as [nodes |]; [| discriminate].
  rewrite event_scan_refines. simpl obind. intros H. injection H as <-.
  cbn [nm_reason]. destruct (reason ticket) as [[| c s] |]; reflexivity.
Qed.

Lemma event_reason_is_string_witness :
  exists message,
    WebhookEventNotification.render REQUEST (Scenario.without_reason Sample.ticket)
      = Returned message /\
    nm_reason message = PStr "".
Proof.
  eexists. split; [reflexivity |].
  apply (@event_reason_is_string REQUEST (Scenario.without_reason Sample.ticket)).
  reflexivity.
Defined.

(** X21: with the URL configured and a rendered message, the event [send]
    first prints the message and then posts that same message to the URL,
    as the request data and without a timeout; whatever follows is at most
    one report. *)
Theorem event_send_prints_then_posts (cfg : Config) (w : World) (phase : TicketPhase)
  (ticket : Ticket) (message : NotifyMessage) :
  PyStr.truthy (WEBHOOK_EVENT_URL cfg) = true ->
  WebhookEventNotification.render phase ticket = Returned message ->
  exists rest,
    trace_of (WebhookEventNotification.send cfg w phase ticket) =
      EvPrint message
        :: EvPost (PyStr.fmt (WEBHOOK_EVENT_URL cfg)) (DataEvent message) None
        :: rest /\
    (rest = [] \/ rest = [EvReport]).
Proof.
  intros Hurl Hm. unfold WebhookEventNotification.send, Notification.post.
  rewrite Hurl, Hm; simpl.
  destruct (http w) as [e | status_code body]; simpl.
  - exists []. split; [reflexivity | left; reflexivity].
  - destruct (check_response_trace (status_code, body)) as [H | H].
    + destruct (Notification.check_response (status_code, body)) as [t o].
      simpl in H. subst t. exists []. split; [reflexivity | left; reflexivity].
    + rewrite H. exists [EvReport]. split; [reflexivity | right; reflexivity].
Qed.

Lemma event_send_prints_then_posts_witness :
  exists message,
    WebhookEventNotification.render REQUEST Sample.ticket = Returned message /\
    trace_of (WebhookEventNotification.send Sample.cfg
                (Sample.world Sample.full_text (Response 502 None))
                REQUEST Sample.ticket) =
      [EvPrint message;
       EvPost "https://hooks.example.com/event" (DataEvent message) None;
       EvReport].
Proof.
  eexists. split; [reflexivity |].
  destruct (@event_send_prints_then_posts Sample.cfg
              (Sample.world Sample.full_text (Response 502 None))
              REQUEST Sample.ticket _ eq_refl eq_refl) as [rest [Ht Hrest]].
  rewrite Ht. vm_compute in Ht. injection Ht as <-. reflexivity.
Defined.

(* ================================================================= *)
(** ** More on the mail recipients *)



